(** * Signup page ([src/app/auth/signup/page.jsx]): validation and two-phase
      account creation.

    The page component keeps the registration draft in React state and its
    [handleSubmit] handler validates the draft, asks the auth service to create
    the account, inserts the profile row and schedules the redirect.  The
    handler is embedded as a computation in a small trace-and-exception monad:
    every state setter, every external call and the timer registration is an
    [Effect] appended to the trace, in program order; [throw]/[catch] are the
    JavaScript ones. *)

From Stdlib Require Import String Ascii List ZArith Bool Lia.
Import ListNotations.
Local Open Scope list_scope.
Local Open Scope string_scope.

(** ** JavaScript strings *)

Module JSString.

(** [s.split(sep)] for a one-character separator.  The result is never
    empty: the empty string splits into one empty part. *)
Fixpoint split (sep : ascii) (s : string) : list string :=
  match s with
  | EmptyString => [EmptyString]
  | String c rest =>
      if Ascii.eqb c sep then EmptyString :: split sep rest
      else match split sep rest with
           | [] => [String c EmptyString]
           | part :: parts => String c part :: parts
           end
  end.

(** [s.endsWith(suffix)]. *)
Definition endsWith (s suffix : string) : bool :=
  let n := String.length s in
  let m := String.length suffix in
  (m <=? n)%nat && String.eqb (substring (n - m) m s) suffix.

(** [arr[i]]: [None] stands for [undefined]. *)
Definition index (arr : list string) (i : nat) : option string :=
  nth_error arr i.

(** [v !== lit] where [v] is a string or [undefined]. *)
Definition strict_neq (v : option string) (lit : string) : bool :=
  match v with
  | Some x => negb (String.eqb x lit)
  | None => true
  end.

(** Truthiness of a string: only the empty string is falsy. *)
Definition truthy (s : string) : bool :=
  match s with
  | EmptyString => false
  | String _ _ => true
  end.

(** Truthiness of a value that is [null] or a string. *)
Definition truthy_opt (v : option string) : bool :=
  match v with
  | Some s => truthy s
  | None => false
  end.

End JSString.

(** ** Regular expressions of the shape [^a1 a2 ... an$]

    The only pattern of the page, [/^\d{4}20\d{2}$/], is a sequence of
    one-character atoms anchored at both ends (no flags: [$] is the end of the
    input). *)

Module Regex.

Inductive atom : Type :=
| Digit                (* \d *)
| Lit (c : ascii).     (* a literal character *)

(** [\d] is exactly the ten characters 0..9. *)
Definition is_digit (c : ascii) : bool :=
  let n := nat_of_ascii c in
  (48 <=? n)%nat && (n <=? 57)%nat.

Definition matches_atom (a : atom) (c : ascii) : bool :=
  match a with
  | Digit => is_digit c
  | Lit x => Ascii.eqb c x
  end.

(** [a{n}] *)
Definition times (n : nat) (a : atom) : list atom := repeat a n.

(** [/^p$/.test(s)] *)
Fixpoint test (p : list atom) (s : string) : bool :=
  match p, s with
  | [], EmptyString => true
  | a :: p', String c s' => matches_atom a c && test p' s'
  | _, _ => false
  end.

End Regex.

(** ** Values exchanged with the outside world *)

(** An exception value or a service-reported error; only its [message] is
    ever read by the page. *)
Record JsError : Type := { message : string }.

(** What evaluating a call (or awaiting its promise) gives. *)
Inductive Outcome (A : Type) : Type :=
| Returns (a : A)
| Throws (e : JsError).
Arguments Returns {A} a.
Arguments Throws {A} e.

(** [supabase.auth.signUp] *)
Module Auth.
Record User : Type := { id : string }.
Record Metadata : Type :=
  { first_name : string;
    last_name : string;
    student_id : option string;     (* [None] is [null] *)
    role_id : Z }.
Record Options : Type := { data : Metadata }.
Record Credentials : Type :=
  { email : string; password : string; options : Options }.
(** The resolved value [{ data: { user }, error }]. *)
Record Response : Type :=
  { user : option User;             (* [data.user], [None] is [null] *)
    error : option JsError }.
End Auth.

(** [supabase.from('users').insert] *)
Module Users.
Record Row : Type :=
  { id : string;
    fname : string;
    lname : string;
    email : string;
    role_id : Z;
    student_id : option string;     (* [None] is [null] *)
    password : string }.
Record Response : Type := { error : option JsError }.
End Users.

(** The client object returned by [createClient()]. *)
Record Client : Type :=
  { auth_signUp : Auth.Credentials -> Outcome Auth.Response;
    from_users_insert : Users.Row -> Outcome Users.Response }.

(** [router.push(path)] *)
Inductive RouterCmd : Type :=
| Push (path : string).

(** The arrow function handed to [setTimeout], as the closure it is: its
    only free variable is [role]. *)
Inductive Callback : Type :=
| RedirectByRole (role : string).

(** Running the timer callback, lines 143-150. *)
Definition runCallback (cb : Callback) : list RouterCmd :=
  match cb with
  | RedirectByRole role =>
      if String.eqb role "student" then [Push "/dashboard/student"]
      else [Push "/dashboard/admin"]
  end.

(** ** Component state

    The [useState] cells that [handleSubmit] reads or writes. *)
Record FormState : Type :=
  { email : string;
    password : string;
    confirmPassword : string;
    firstName : string;
    lastName : string;
    studentId : string;
    role : string;
    error : option string;            (* [None] is [null] *)
    isLoading : bool;
    showSuccess : bool }.

(** The state of a freshly mounted page, lines 25-34. *)
Definition initialState : FormState :=
  {| email := ""; password := ""; confirmPassword := "";
     firstName := ""; lastName := ""; studentId := "";
     role := "student"; error := None;
     isLoading := false; showSuccess := false |}.

(** ** Effects, in program order *)

Inductive Effect : Type :=
| PreventDefault
| SetIsLoading (b : bool)
| SetError (e : option string)
| SetShowSuccess (b : bool)
| AuthSignUp (req : Auth.Credentials)
| UsersInsert (row : Users.Row)
| SetTimeout (cb : Callback) (ms : Z).

(** What a state setter does to the state; the other effects leave the
    component state alone. *)
Definition applyEffect (st : FormState) (e : Effect) : FormState :=
  match e with
  | SetIsLoading b =>
      {| email := st.(email); password := st.(password);
         confirmPassword := st.(confirmPassword);
         firstName := st.(firstName); lastName := st.(lastName);
         studentId := st.(studentId); role := st.(role);
         error := st.(error); isLoading := b;
         showSuccess := st.(showSuccess) |}
  | SetError v =>
      {| email := st.(email); password := st.(password);
         confirmPassword := st.(confirmPassword);
         firstName := st.(firstName); lastName := st.(lastName);
         studentId := st.(studentId); role := st.(role);
         error := v; isLoading := st.(isLoading);
         showSuccess := st.(showSuccess) |}
  | SetShowSuccess b =>
      {| email := st.(email); password := st.(password);
         confirmPassword := st.(confirmPassword);
         firstName := st.(firstName); lastName := st.(lastName);
         studentId := st.(studentId); role := st.(role);
         error := st.(error); isLoading := st.(isLoading);
         showSuccess := b |}
  | PreventDefault | AuthSignUp _ | UsersInsert _ | SetTimeout _ _ => st
  end.

Definition applyTrace (st : FormState) (t : list Effect) : FormState :=
  fold_left applyEffect t st.

(** ** The trace-and-exception monad *)

Definition Eff (A : Type) : Type := (list Effect * Outcome A)%type.

Definition ret {A : Type} (a : A) : Eff A := ([], Returns a).

Definition bind {A B : Type} (m : Eff A) (k : A -> Eff B) : Eff B :=
  match m with
  | (t, Returns a) => let (t', r) := k a in ((t ++ t')%list, r)
  | (t, Throws e) => (t, Throws e)
  end.

Definition throw {A : Type} (e : JsError) : Eff A := ([], Throws e).

Definition emit (e : Effect) : Eff unit := ([e], Returns tt).

(** [await o] / evaluating a call whose outcome is [o]. *)
Definition await {A : Type} (o : Outcome A) : Eff A := ([], o).

(** [try { body } catch (error) { handler }] *)
Definition try_catch {A : Type} (body : Eff A) (handler : JsError -> Eff A)
  : Eff A :=
  match body with
  | (t, Returns a) => (t, Returns a)
  | (t, Throws e) => let (t', r) := handler e in ((t ++ t')%list, r)
  end.

Declare Scope eff_scope.
Delimit Scope eff_scope with eff.
Notation "x <- m ;; k" := (bind m (fun x => k))
  (at level 61, m at next level, right associativity) : eff_scope.
Notation "m ;; k" := (bind m (fun _ => k))
  (at level 61, right associativity) : eff_scope.

Definition trace {A : Type} (m : Eff A) : list Effect := fst m.
Definition outcome {A : Type} (m : Eff A) : Outcome A := snd m.

(** ** Observations on a trace *)

Definition isExternalCall (e : Effect) : bool :=
  match e with
  | AuthSignUp _ | UsersInsert _ => true
  | _ => false
  end.

Definition isSignUp (e : Effect) : bool :=
  match e with AuthSignUp _ => true | _ => false end.

Definition isInsert (e : Effect) : bool :=
  match e with UsersInsert _ => true | _ => false end.

Definition isTimer (e : Effect) : bool :=
  match e with SetTimeout _ _ => true | _ => false end.

Definition isSetShowSuccess (e : Effect) : bool :=
  match e with SetShowSuccess _ => true | _ => false end.

(** A [setError] call with a message (not the reset to [null]). *)
Definition isErrorMessage (e : Effect) : bool :=
  match e with SetError (Some _) => true | _ => false end.

Definition clearsBusy (e : Effect) : bool :=
  match e with SetIsLoading false => true | _ => false end.

(** The external calls of a trace, in order. *)
Definition externalCalls (t : list Effect) : list Effect :=
  filter isExternalCall t.

(** ** The page's handlers *)

(** [const studentIdPattern = /^\d{4}20\d{2}$/], line 99. *)
Definition studentIdPattern : list Regex.atom :=
  (Regex.times 4 Regex.Digit
   ++ [Regex.Lit "2"%char; Regex.Lit "0"%char]
   ++ Regex.times 2 Regex.Digit)%list.

(** The messages of the page's own checks (lines 57, 85, 93, 101). *)
Definition mismatchMessage : string := "Passwords don't match".
Definition domainMessage : string :=
  "Only Ashesi email addresses are allowed (ashesi.edu.gh or aucampus.onmicrosoft.com)".
Definition requiredMessage : string := "Student ID is required".
Definition formatMessage : string :=
  "Invalid Student ID format. Expected format: XXXX20XX".

(** The allow-list of line 84. *)
Definition allowedDomains : list string :=
  ["ashesi.edu.gh"; "aucampus.onmicrosoft.com"].

(** What the handler always does first, lines 72-74. *)
Definition prelude : list Effect :=
  [PreventDefault; SetIsLoading true; SetError None].

(** The trace of an attempt rejected before any network call with [msg]. *)
Definition rejected (msg : string) : list Effect :=
  (prelude ++ [SetError (Some msg); SetIsLoading false])%list.

(** ** Sample collaborators, used to run the handler on concrete drafts *)

(** A strength policy that asks for eight characters. *)
Definition lengthPolicy (pw : string) : option string :=
  if (String.length pw <? 8)%nat
  then Some "Password must be at least 8 characters long"
  else None.

(** A backend on which both calls succeed. *)
Definition okClient : Client :=
  {| auth_signUp := fun _ =>
       Returns {| Auth.user := Some {| Auth.id := "user-1" |};
                  Auth.error := None |};
     from_users_insert := fun _ => Returns {| Users.error := None |} |}.

(** A backend whose auth service rejects the account. *)
Definition authFailClient : Client :=
  {| auth_signUp := fun _ =>
       Returns {| Auth.user := None;
                  Auth.error := Some {| message := "User already registered" |} |};
     from_users_insert := fun _ => Returns {| Users.error := None |} |}.

(** A backend that creates the account and then refuses the profile row. *)
Definition insertFailClient : Client :=
  {| auth_signUp := fun _ =>
       Returns {| Auth.user := Some {| Auth.id := "user-1" |};
                  Auth.error := None |};
     from_users_insert := fun _ =>
       Returns {| Users.error :=
                    Some {| message := "duplicate key value violates unique constraint" |} |} |}.

Definition sampleTypeError : JsError :=
  {| message := "Cannot read properties of null (reading 'id')" |}.

(** A complete student draft. *)
Definition studentDraft : FormState :=
  {| email := "ama.mensah@ashesi.edu.gh";
     password := "Abc123!@"; confirmPassword := "Abc123!@";
     firstName := "Ama"; lastName := "Mensah";
     studentId := "12342023"; role := "student";
     error := None; isLoading := false; showSuccess := false |}.

(** A complete staff draft with a stale student ID left in the field. *)
Definition staffDraft : FormState :=
  {| email := "kofi.boateng@aucampus.onmicrosoft.com";
     password := "Abc123!@"; confirmPassword := "Abc123!@";
     firstName := "Kofi"; lastName := "Boateng";
     studentId := "12342023"; role := "admin";
     error := None; isLoading := false; showSuccess := false |}.

(** [st] with another value in one field. *)
Definition withStudentId (st : FormState) (v : string) : FormState :=
  {| email := st.(email); password := st.(password);
     confirmPassword := st.(confirmPassword);
     firstName := st.(firstName); lastName := st.(lastName);
     studentId := v; role := st.(role);
     error := st.(error); isLoading := st.(isLoading);
     showSuccess := st.(showSuccess) |}.

Definition withEmail (st : FormState) (v : string) : FormState :=
  {| email := v; password := st.(password);
     confirmPassword := st.(confirmPassword);
     firstName := st.(firstName); lastName := st.(lastName);
     studentId := st.(studentId); role := st.(role);
     error := st.(error); isLoading := st.(isLoading);
     showSuccess := st.(showSuccess) |}.

Definition withConfirmPassword (st : FormState) (v : string) : FormState :=
  {| email := st.(email); password := st.(password);
     confirmPassword := v;
     firstName := st.(firstName); lastName := st.(lastName);
     studentId := st.(studentId); role := st.(role);
     error := st.(error); isLoading := st.(isLoading);
     showSuccess := st.(showSuccess) |}.

Section Signup.

(** [validatePassword] of [@/utils/validation]: the strength policy, taken
    as a function that does not throw.  It answers a falsy value ([null] or
    the empty string) when the password is acceptable and the message to
    show otherwise; the page only tests its truthiness and forwards it to
    [setError]. *)
Variable validatePassword : string -> option string.

(** [createClient] of [@/utils/supabase/client]. *)
Variable createClient : Outcome Client.

(** The [TypeError] the engine raises on reading [.id] of [null]. *)
Variable nullUserError : JsError.

Local Open Scope eff_scope.

(** Lines 47-62. *)
Definition validateForm (st : FormState) : Eff bool :=
  let passwordError := validatePassword st.(password) in
  if JSString.truthy_opt passwordError then
    emit (SetError passwordError) ;;
    ret false
  else if negb (String.eqb st.(password) st.(confirmPassword)) then
    emit (SetError (Some "Passwords don't match")) ;;
    ret false
  else
    ret true.

(** Lines 118/133 and 119/132: the role-dependent fields of both calls. *)
Definition studentIdOrNull (st : FormState) : option string :=
  if String.eqb st.(role) "student" then Some st.(studentId) else None.

Definition roleId (st : FormState) : Z :=
  if String.eqb st.(role) "student" then 3%Z else 2%Z.

(** The argument of [supabase.auth.signUp], lines 111-122. *)
Definition signUpRequest (st : FormState) : Auth.Credentials :=
  {| Auth.email := st.(email);
     Auth.password := st.(password);
     Auth.options :=
       {| Auth.data :=
            {| Auth.first_name := st.(firstName);
               Auth.last_name := st.(lastName);
               Auth.student_id := studentIdOrNull st;
               Auth.role_id := roleId st |} |} |}.

(** The argument of [insert], lines 127-135. *)
Definition profileRow (st : FormState) (uid : string) : Users.Row :=
  {| Users.id := uid;
     Users.fname := st.(firstName);
     Users.lname := st.(lastName);
     Users.email := st.(email);
     Users.role_id := roleId st;
     Users.student_id := studentIdOrNull st;
     Users.password := "hashed_by_supabase" |}.

(** The [try]/[catch] block, lines 107-155. *)
Definition createAccount (st : FormState) : Eff unit :=
  try_catch
    (supabase <- await createClient ;;
     emit (AuthSignUp (signUpRequest st)) ;;
     resp <- await (supabase.(auth_signUp) (signUpRequest st)) ;;
     match resp.(Auth.error) with
     | Some authError => throw authError
     | None =>
         uid <- match resp.(Auth.user) with
                | Some u => ret u.(Auth.id)
                | None => throw nullUserError
                end ;;
         emit (UsersInsert (profileRow st uid)) ;;
         ins <- await (supabase.(from_users_insert) (profileRow st uid)) ;;
         match ins.(Users.error) with
         | Some profileError => throw profileError
         | None =>
             emit (SetShowSuccess true) ;;
             emit (SetTimeout (RedirectByRole st.(role)) 5000)
         end
     end)
    (fun error =>
       emit (SetError (Some error.(message))) ;;
       emit (SetIsLoading false)).

(** Lines 71-156.  Each early [return] is the end of its branch. *)
Definition handleSubmit (st : FormState) : Eff unit :=
  emit PreventDefault ;;
  emit (SetIsLoading true) ;;
  emit (SetError None) ;;
  ok <- validateForm st ;;
  if negb ok then
    emit (SetIsLoading false)
  else
    let parts := JSString.split "@"%char st.(email) in
    if negb (Nat.eqb (List.length parts) 2)
       || (JSString.strict_neq (JSString.index parts 1) "ashesi.edu.gh"
           && JSString.strict_neq (JSString.index parts 1)
                "aucampus.onmicrosoft.com")
    then
      emit (SetError (Some "Only Ashesi email addresses are allowed (ashesi.edu.gh or aucampus.onmicrosoft.com)")) ;;
      emit (SetIsLoading false)
    else if String.eqb st.(role) "student" then
      if negb (JSString.truthy st.(studentId)) then
        emit (SetError (Some "Student ID is required")) ;;
        emit (SetIsLoading false)
      else if negb (Regex.test studentIdPattern st.(studentId)) then
        emit (SetError (Some "Invalid Student ID format. Expected format: XXXX20XX")) ;;
        emit (SetIsLoading false)
      else
        createAccount st
    else
      createAccount st.

(** The component state once the handler has run from [st]. *)
Definition afterSubmit (st : FormState) : FormState :=
  applyTrace st (trace (handleSubmit st)).

(** ** The spec's [validate()], written from its words

    Four checks, run in order, the first failure wins. *)

(** (1) password strength via the external policy function. *)
Definition checkStrength (st : FormState) : option string :=
  match validatePassword st.(password) with
  | Some msg => if JSString.truthy msg then Some msg else None
  | None => None
  end.

(** (2) password/confirm equality. *)
Definition checkMatch (st : FormState) : option string :=
  if String.eqb st.(password) st.(confirmPassword) then None
  else Some mismatchMessage.

(** (3) email domain membership after splitting on [@] and requiring
    exactly two parts. *)
Definition checkDomain (st : FormState) : option string :=
  match JSString.split "@"%char st.(email) with
  | [_; domain] =>
      if existsb (String.eqb domain) allowedDomains then None
      else Some domainMessage
  | _ => Some domainMessage
  end.

(** (4) if role is student, studentId present and matching the pattern. *)
Definition checkStudentId (st : FormState) : option string :=
  if String.eqb st.(role) "student" then
    if String.eqb st.(studentId) "" then Some requiredMessage
    else if Regex.test studentIdPattern st.(studentId) then None
    else Some formatMessage
  else None.

Definition checks : list (FormState -> option string) :=
  [checkStrength; checkMatch; checkDomain; checkStudentId].

Fixpoint firstFailure (cs : list (FormState -> option string))
         (st : FormState) : option string :=
  match cs with
  | [] => None
  | c :: rest =>
      match c st with
      | Some msg => Some msg
      | None => firstFailure rest st
      end
  end.

Definition validate (st : FormState) : option string :=
  firstFailure checks st.

(** "Four digits, then literal 20, then two digits (8 characters total)". *)
Definition wellFormedStudentId (s : string) : Prop :=
  exists a b c d e f : ascii,
    Regex.is_digit a = true /\ Regex.is_digit b = true /\
    Regex.is_digit c = true /\ Regex.is_digit d = true /\
    Regex.is_digit e = true /\ Regex.is_digit f = true /\
    s = String a (String b (String c (String d
          (String "2" (String "0" (String e (String f EmptyString))))))).

(** ** How the two external calls can end *)

(** The auth call reports or raises [e]. *)
Definition authFails (c : Client) (st : FormState) (e : JsError) : Prop :=
  c.(auth_signUp) (signUpRequest st) = Throws e \/
  exists resp,
    c.(auth_signUp) (signUpRequest st) = Returns resp /\
    resp.(Auth.error) = Some e.

(** The auth call creates the account [uid]. *)
Definition authSucceeds (c : Client) (st : FormState) (uid : string) : Prop :=
  exists resp u,
    c.(auth_signUp) (signUpRequest st) = Returns resp /\
    resp.(Auth.error) = None /\
    resp.(Auth.user) = Some u /\ u.(Auth.id) = uid.

(** The insert of the profile row of [uid] reports or raises [e]. *)
Definition insertFails (c : Client) (st : FormState) (uid : string)
           (e : JsError) : Prop :=
  c.(from_users_insert) (profileRow st uid) = Throws e \/
  exists ins,
    c.(from_users_insert) (profileRow st uid) = Returns ins /\
    ins.(Users.error) = Some e.

Definition insertSucceeds (c : Client) (st : FormState) (uid : string)
  : Prop :=
  exists ins,
    c.(from_users_insert) (profileRow st uid) = Returns ins /\
    ins.(Users.error) = None.

(** The ways the [try] block can end, after the spec's state machine. *)
Inductive AccountResult : Type :=
| ClientUnavailable (e : JsError)
| AuthFailed (e : JsError)
| ProfileInsertFailed (uid : string) (e : JsError)
| Succeeded (uid : string).

(** What the [catch] clause does with [e], lines 152-155. *)
Definition caught (e : JsError) : list Effect :=
  [SetError (Some e.(message)); SetIsLoading false].

(** The effects of the [try]/[catch] block for each ending. *)
Definition resultTrace (st : FormState) (r : AccountResult) : list Effect :=
  match r with
  | ClientUnavailable e => caught e
  | AuthFailed e => AuthSignUp (signUpRequest st) :: caught e
  | ProfileInsertFailed uid e =>
      AuthSignUp (signUpRequest st)
      :: UsersInsert (profileRow st uid) :: caught e
  | Succeeded uid =>
      [AuthSignUp (signUpRequest st);
       UsersInsert (profileRow st uid);
       SetShowSuccess true;
       SetTimeout (RedirectByRole st.(role)) 5000]
  end.

(** Which answers of the collaborators lead to which ending. *)
Inductive Ending (st : FormState) : AccountResult -> Prop :=
| EndNoClient e :
    createClient = Throws e ->
    Ending st (ClientUnavailable e)
| EndAuthFailed c e :
    createClient = Returns c -> authFails c st e ->
    Ending st (AuthFailed e)
| EndNullUser c resp :
    createClient = Returns c ->
    c.(auth_signUp) (signUpRequest st) = Returns resp ->
    resp.(Auth.error) = None -> resp.(Auth.user) = None ->
    Ending st (AuthFailed nullUserError)
| EndInsertFailed c uid e :
    createClient = Returns c -> authSucceeds c st uid ->
    insertFails c st uid e ->
    Ending st (ProfileInsertFailed uid e)
| EndSucceeded c uid :
    createClient = Returns c -> authSucceeds c st uid ->
    insertSucceeds c st uid ->
    Ending st (Succeeded uid).

(** The error of an ending, if it is a failure. *)
Definition failureOf (r : AccountResult) : option JsError :=
  match r with
  | ClientUnavailable e | AuthFailed e | ProfileInsertFailed _ e => Some e
  | Succeeded _ => None
  end.

(** The failing submission paths, each with the message that triggers it. *)
Inductive Failure (st : FormState) : string -> Prop :=
| FailValidation msg :
    validate st = Some msg ->
    Failure st msg
| FailAccount r e :
    validate st = None -> Ending st r -> failureOf r = Some e ->
    Failure st e.(message).

(** The first two checks, as the code tests them. *)
Definition passwordChecksPass (st : FormState) : Prop :=
  JSString.truthy_opt (validatePassword st.(password)) = false /\
  st.(password) = st.(confirmPassword).

(** The [student_id] and [role_id] carried by an external call. *)
Definition callFields (e : Effect) : option (option string * Z) :=
  match e with
  | AuthSignUp req =>
      Some (req.(Auth.options).(Auth.data).(Auth.student_id),
            req.(Auth.options).(Auth.data).(Auth.role_id))
  | UsersInsert row => Some (row.(Users.student_id), row.(Users.role_id))
  | _ => None
  end.

(** ** The rest of the page: local state, event handlers, rendering *)

(** Occurrences of a character in a string. *)
Fixpoint countChar (c : ascii) (s : string) : nat :=
  match s with
  | EmptyString => 0
  | String d rest => (if Ascii.eqb d c then 1 else 0) + countChar c rest
  end.

(** The condition of line 84 on [email.split('@')]: true when the address
    is refused. *)
Definition emailRejected (address : string) : bool :=
  let parts := JSString.split "@"%char address in
  negb (Nat.eqb (List.length parts) 2)
  || (JSString.strict_neq (JSString.index parts 1) "ashesi.edu.gh"
      && JSString.strict_neq (JSString.index parts 1)
           "aucampus.onmicrosoft.com").

(** The [touched] object of line 37: its keys in insertion order. *)
Definition Touched : Type := list (string * bool).

(** [obj[k]]; [None] is [undefined]. *)
Fixpoint getKey (k : string) (o : Touched) : option bool :=
  match o with
  | [] => None
  | (k', v) :: rest => if String.eqb k' k then Some v else getKey k rest
  end.

(** [{...obj, [k]: v}]: an existing key keeps its place and takes the new
    value, a new key goes last. *)
Fixpoint setKey (k : string) (v : bool) (o : Touched) : Touched :=
  match o with
  | [] => [(k, v)]
  | (k', v') :: rest =>
      if String.eqb k' k then (k', v) :: rest
      else (k', v') :: setKey k v rest
  end.

(** Truthiness of [touched[k]]. *)
Definition isTouched (k : string) (o : Touched) : bool :=
  match getKey k o with
  | Some b => b
  | None => false
  end.

(** All the [useState] cells of the component, lines 25-37. *)
Record PageState : Type :=
  { form : FormState;
    showPassword : bool;
    showConfirmPassword : bool;
    touched : Touched }.

Definition initialPage : PageState :=
  {| form := initialState; showPassword := false;
     showConfirmPassword := false; touched := [] |}.

(** Lines 40-45. *)
Definition handleBlur (field : string) (p : PageState) : PageState :=
  {| form := p.(form); showPassword := p.(showPassword);
     showConfirmPassword := p.(showConfirmPassword);
     touched := setKey field true p.(touched) |}.

Definition withPassword (st : FormState) (v : string) : FormState :=
  {| email := st.(email); password := v;
     confirmPassword := st.(confirmPassword);
     firstName := st.(firstName); lastName := st.(lastName);
     studentId := st.(studentId); role := st.(role);
     error := st.(error); isLoading := st.(isLoading);
     showSuccess := st.(showSuccess) |}.

Definition withFirstName (st : FormState) (v : string) : FormState :=
  {| email := st.(email); password := st.(password);
     confirmPassword := st.(confirmPassword);
     firstName := v; lastName := st.(lastName);
     studentId := st.(studentId); role := st.(role);
     error := st.(error); isLoading := st.(isLoading);
     showSuccess := st.(showSuccess) |}.

Definition withLastName (st : FormState) (v : string) : FormState :=
  {| email := st.(email); password := st.(password);
     confirmPassword := st.(confirmPassword);
     firstName := st.(firstName); lastName := v;
     studentId := st.(studentId); role := st.(role);
     error := st.(error); isLoading := st.(isLoading);
     showSuccess := st.(showSuccess) |}.

Definition withRole (st : FormState) (v : string) : FormState :=
  {| email := st.(email); password := st.(password);
     confirmPassword := st.(confirmPassword);
     firstName := st.(firstName); lastName := st.(lastName);
     studentId := st.(studentId); role := v;
     error := st.(error); isLoading := st.(isLoading);
     showSuccess := st.(showSuccess) |}.

Definition withForm (p : PageState) (st : FormState) : PageState :=
  {| form := st; showPassword := p.(showPassword);
     showConfirmPassword := p.(showConfirmPassword);
     touched := p.(touched) |}.

(** The events the JSX wires to handlers (lines 234-427). *)
Inductive PageEvent : Type :=
| SelectStudent                       (* line 247 *)
| SelectAdmin                         (* line 261 *)
| ChangeFirstName (v : string)        (* line 284 *)
| ChangeLastName (v : string)         (* line 299 *)
| ChangeStudentId (v : string)        (* line 317 *)
| ChangeEmail (v : string)            (* line 335 *)
| ChangePassword (v : string)         (* line 352 *)
| BlurPassword                        (* line 353 *)
| ToggleShowPassword                  (* line 358 *)
| ChangeConfirmPassword (v : string)  (* line 379 *)
| BlurConfirmPassword                 (* line 380 *)
| ToggleShowConfirmPassword           (* line 385 *)
| SubmitForm.                         (* line 234 *)

(** The conditional parts of the rendered page. *)
Record View : Type :=
  { successOverlay : bool;                    (* line 160 *)
    fullPageSpinner : bool;                   (* line 192 *)
    errorBanner : option string;              (* lines 228-232 *)
    studentRadioChecked : bool;               (* line 246 *)
    adminRadioChecked : bool;                 (* line 260 *)
    studentIdInput : option (string * bool);  (* lines 306-322: value, required *)
    passwordInputType : string;               (* line 348 *)
    passwordStrength : option string;         (* line 364 *)
    confirmInputType : string;                (* line 375 *)
    mismatchHint : bool;                      (* lines 391-393 *)
    adminNotice : bool;                       (* lines 397-405 *)
    submitLoading : bool }.                   (* line 411 *)

(** The [return (...)] of the component, lines 158-469, reduced to its
    conditionals. *)
Definition render (p : PageState) : View :=
  let st := p.(form) in
  {| successOverlay := st.(showSuccess);
     fullPageSpinner := st.(isLoading);
     errorBanner :=
       if JSString.truthy_opt st.(error) then st.(error) else None;
     studentRadioChecked := String.eqb st.(role) "student";
     adminRadioChecked := String.eqb st.(role) "admin";
     studentIdInput :=
       if String.eqb st.(role) "student"
       then Some (st.(studentId), String.eqb st.(role) "student")
       else None;
     passwordInputType := if p.(showPassword) then "text" else "password";
     passwordStrength :=
       if isTouched "password" p.(touched) then Some st.(password) else None;
     confirmInputType :=
       if p.(showConfirmPassword) then "text" else "password";
     mismatchHint :=
       isTouched "confirmPassword" p.(touched)
       && negb (String.eqb st.(password) st.(confirmPassword));
     adminNotice := String.eqb st.(role) "admin";
     submitLoading := st.(isLoading) |}.

(** What each event does to the state; a submission is taken as a whole,
    up to the end of [handleSubmit]. *)
Definition dispatch (p : PageState) (ev : PageEvent) : PageState :=
  match ev with
  | SelectStudent => withForm p (withRole p.(form) "student")
  | SelectAdmin => withForm p (withRole p.(form) "admin")
  | ChangeFirstName v => withForm p (withFirstName p.(form) v)
  | ChangeLastName v => withForm p (withLastName p.(form) v)
  | ChangeStudentId v => withForm p (withStudentId p.(form) v)
  | ChangeEmail v => withForm p (withEmail p.(form) v)
  | ChangePassword v => withForm p (withPassword p.(form) v)
  | BlurPassword => handleBlur "password" p
  | ToggleShowPassword =>
      {| form := p.(form); showPassword := negb p.(showPassword);
         showConfirmPassword := p.(showConfirmPassword);
         touched := p.(touched) |}
  | ChangeConfirmPassword v => withForm p (withConfirmPassword p.(form) v)
  | BlurConfirmPassword => handleBlur "confirmPassword" p
  | ToggleShowConfirmPassword =>
      {| form := p.(form); showPassword := p.(showPassword);
         showConfirmPassword := negb p.(showConfirmPassword);
         touched := p.(touched) |}
  | SubmitForm => withForm p (afterSubmit p.(form))
  end.

Definition runEvents (p : PageState) (evs : list PageEvent) : PageState :=
  fold_left dispatch evs p.

(** Two states with the same draft: they differ at most in [error],
    [isLoading] and [showSuccess]. *)
Definition sameDraft (a b : FormState) : Prop :=
  a.(email) = b.(email) /\ a.(password) = b.(password) /\
  a.(confirmPassword) = b.(confirmPassword) /\
  a.(firstName) = b.(firstName) /\ a.(lastName) = b.(lastName) /\
  a.(studentId) = b.(studentId) /\ a.(role) = b.(role).

(** A backend whose auth call answers with neither an error nor a user. *)
Definition nullUserClient : Client :=
  {| auth_signUp := fun _ =>
       Returns {| Auth.user := None; Auth.error := None |};
     from_users_insert := fun _ => Returns {| Users.error := None |} |}.

Definition isBlurPassword (ev : PageEvent) : bool :=
  match ev with BlurPassword => true | _ => false end.

Definition isBlurConfirmPassword (ev : PageEvent) : bool :=
  match ev with BlurConfirmPassword => true | _ => false end.

Definition isSubmit (ev : PageEvent) : bool :=
  match ev with SubmitForm => true | _ => false end.

(** ** Basic facts on [split] and [endsWith] *)

Lemma split_nonempty (sep : ascii) (s : string) : JSString.split sep s <> [].
Proof.
  destruct s as [|c rest]; simpl; [discriminate|].
  destruct (Ascii.eqb c sep); [discriminate|].
  destruct (JSString.split sep rest); discriminate.
Qed.

(** Joining the parts with the separator gives the string back. *)
Lemma concat_split (sep : ascii) (s : string) :
  String.concat (String sep EmptyString) (JSString.split sep s) = s.
Proof.
  induction s as [|c rest IH]; simpl; [reflexivity|].
  destruct (Ascii.eqb_spec c sep) as [->|Hne].
  - pose proof (split_nonempty sep rest) as Hnil.
    destruct (JSString.split sep rest) as [|p ps] eqn:E; [contradiction|].
    cbn [String.concat]. cbn [String.concat] in IH.
    destruct ps; simpl in *; now rewrite IH.
  - pose proof (split_nonempty sep rest) as Hnil.
    destruct (JSString.split sep rest) as [|p ps] eqn:E; [contradiction|].
    cbn [String.concat] in *.
    destruct ps; simpl in *; now rewrite IH.
Qed.

Lemma split_two (sep : ascii) (s a b : string) :
  JSString.split sep s = [a; b] -> s = a ++ String sep b.
Proof.
  intros H. rewrite <- (concat_split sep s), H. reflexivity.
Qed.

Lemma substring_app_r (p q : string) :
  substring (String.length p) (String.length q) (p ++ q) = q.
Proof.
  induction p as [|c p IH]; simpl.
  - induction q as [|d q IHq]; simpl; [reflexivity|].
    now rewrite IHq.
  - exact IH.
Qed.

Lemma length_app (p q : string) :
  String.length (p ++ q) = (String.length p + String.length q)%nat.
Proof. induction p; simpl; congruence. Qed.

Lemma endsWith_app (p q : string) : JSString.endsWith (p ++ q) q = true.
Proof.
  unfold JSString.endsWith. rewrite length_app.
  replace (String.length p + String.length q - String.length q)%nat
    with (String.length p) by lia.
  rewrite substring_app_r, String.eqb_refl, andb_true_r.
  apply Nat.leb_le. lia.
Qed.

Lemma substring_all (s : string) : substring 0 (String.length s) s = s.
Proof. induction s as [|c s IH]; simpl; [reflexivity|now rewrite IH]. Qed.

Lemma substring_cut (s : string) : forall k m : nat,
  (k + m = String.length s)%nat -> s = substring 0 k s ++ substring k m s.
Proof.
  induction s as [|c s IH]; intros k m H; simpl in H.
  - assert (k = 0%nat) by lia. assert (m = 0%nat) by lia. subst. reflexivity.
  - destruct k as [|k].
    + simpl in H. subst m. simpl. now rewrite substring_all.
    + simpl. f_equal. apply IH. lia.
Qed.

Lemma endsWith_inv (s q : string) :
  JSString.endsWith s q = true -> exists p, s = p ++ q.
Proof.
  unfold JSString.endsWith. intros H.
  apply andb_true_iff in H as [Hle Heq].
  apply Nat.leb_le in Hle. apply String.eqb_eq in Heq.
  exists (substring 0 (String.length s - String.length q) s).
  rewrite <- Heq at 2. apply substring_cut. lia.
Qed.

(** [endsWith] decides "ends in". *)
Lemma endsWith_spec (s q : string) :
  JSString.endsWith s q = true <-> exists p, s = p ++ q.
Proof.
  split; [apply endsWith_inv|].
  intros [p ->]. apply endsWith_app.
Qed.

(** ** The code's domain test is the allow-list check *)

Lemma domain_test (st : FormState) :
  (let parts := JSString.split "@"%char st.(email) in
   negb (Nat.eqb (List.length parts) 2)
   || (JSString.strict_neq (JSString.index parts 1) "ashesi.edu.gh"
       && JSString.strict_neq (JSString.index parts 1)
            "aucampus.onmicrosoft.com"))
  = match checkDomain st with Some _ => true | None => false end.
Proof.
  unfold checkDomain, allowedDomains.
  destruct (JSString.split "@"%char st.(email)) as [|a [|b [|c l]]];
    try reflexivity.
  cbn [List.length Nat.eqb negb orb JSString.index nth_error
       JSString.strict_neq existsb].
  destruct (String.eqb b "ashesi.edu.gh");
    destruct (String.eqb b "aucampus.onmicrosoft.com"); reflexivity.
Qed.

Lemma checkDomain_message (st : FormState) (msg : string) :
  checkDomain st = Some msg -> msg = domainMessage.
Proof.
  unfold checkDomain.
  destruct (JSString.split "@"%char st.(email)) as [|a [|b [|c l]]];
    try (intros [= <-]; reflexivity).
  destruct (existsb _ _); [discriminate|intros [= <-]; reflexivity].
Qed.

Lemma truthy_eqb (s : string) : JSString.truthy s = negb (String.eqb s "").
Proof. destruct s; reflexivity. Qed.

(** ** The handler, check by check *)

(** [validateForm] runs the first two checks of the spec's [validate()]. *)
Lemma validateForm_checks (st : FormState) :
  validateForm st =
  match firstFailure [checkStrength; checkMatch] st with
  | Some msg => ([SetError (Some msg)], Returns false)
  | None => ([], Returns true)
  end.
Proof.
  unfold validateForm, firstFailure, checkStrength, checkMatch.
  destruct (validatePassword st.(password)) as [msg|]; simpl.
  - destruct (JSString.truthy msg); simpl; [reflexivity|].
    destruct (String.eqb st.(password) st.(confirmPassword)); reflexivity.
  - destruct (String.eqb st.(password) st.(confirmPassword)); reflexivity.
Qed.

(** The handler rejects with the first failure of [validate], and otherwise
  goes on to the network calls. *)
Lemma handleSubmit_validate (st : FormState) :
  handleSubmit st =
  match validate st with
  | Some msg => (rejected msg, Returns tt)
  | None =>
      ((prelude ++ trace (createAccount st))%list, outcome (createAccount st))
  end.
Proof.
  unfold handleSubmit, validate, checks.
  rewrite validateForm_checks.
  pose proof (domain_test st) as Hdom. cbv zeta in Hdom.
  cbv zeta. rewrite Hdom. clear Hdom.
  cbn [firstFailure].
  destruct (checkStrength st) as [m1|]; [reflexivity|].
  destruct (checkMatch st) as [m2|]; [reflexivity|].
  destruct (checkDomain st) as [m3|] eqn:Ed.
  { apply checkDomain_message in Ed. subst m3. reflexivity. }
  unfold checkStudentId. rewrite truthy_eqb, negb_involutive.
  destruct (String.eqb st.(role) "student").
  - destruct (String.eqb st.(studentId) ""); [reflexivity|].
    destruct (Regex.test studentIdPattern st.(studentId)); [|reflexivity].
    destruct (createAccount st) as [t r]; reflexivity.
  - destruct (createAccount st) as [t r]; reflexivity.
Qed.

(** The [try]/[catch] block always completes, in one of the five ways. *)
Lemma createAccount_result (st : FormState) :
  exists r, Ending st r /\ createAccount st = (resultTrace st r, Returns tt).
Proof.
  unfold createAccount.
  destruct createClient as [c|e] eqn:Ec.
  2:{ exists (ClientUnavailable e). split; [now constructor|reflexivity]. }
  cbn [await bind emit app].
  destruct (c.(auth_signUp) (signUpRequest st)) as [resp|e] eqn:Ea.
  2:{ exists (AuthFailed e). split; [|reflexivity].
      apply EndAuthFailed with c; [assumption|now left]. }
  cbn [bind app].
  destruct resp.(Auth.error) as [e|] eqn:Ee.
  { exists (AuthFailed e). split; [|reflexivity].
    apply EndAuthFailed with c; [assumption|right; eauto]. }
  destruct resp.(Auth.user) as [u|] eqn:Eu.
  2:{ exists (AuthFailed nullUserError). split; [|reflexivity].
      now apply EndNullUser with c resp. }
  assert (Hok : authSucceeds c st u.(Auth.id)) by (exists resp, u; auto).
  cbn [ret bind emit app].
  destruct (c.(from_users_insert) (profileRow st u.(Auth.id)))
    as [ins|e] eqn:Ei.
  2:{ exists (ProfileInsertFailed u.(Auth.id) e). split; [|reflexivity].
      apply EndInsertFailed with c; [assumption|assumption|now left]. }
  cbn [bind app].
  destruct ins.(Users.error) as [e|] eqn:Eie.
  - exists (ProfileInsertFailed u.(Auth.id) e). split; [|reflexivity].
    apply EndInsertFailed with c; [assumption|assumption|right; eauto].
  - exists (Succeeded u.(Auth.id)). split; [|reflexivity].
    apply EndSucceeded with c; [assumption|assumption|]. exists ins; auto.
Qed.

(** The ending is determined by the collaborators' answers. *)
Lemma Ending_unique (st : FormState) (r r' : AccountResult) :
  Ending st r -> Ending st r' -> r = r'.
Proof.
  intros H H'.
  destruct H; destruct H';
    unfold authFails, authSucceeds, insertFails, insertSucceeds in *;
    repeat match goal with
           | H : _ \/ _ |- _ => destruct H
           | H : exists _, _ |- _ => destruct H
           | H : _ /\ _ |- _ => destruct H
           end;
    congruence.
Qed.

Lemma handleSubmit_rejected (st : FormState) (msg : string) :
  validate st = Some msg -> handleSubmit st = (rejected msg, Returns tt).
Proof. intros H. now rewrite handleSubmit_validate, H. Qed.

Lemma handleSubmit_ending (st : FormState) (r : AccountResult) :
  validate st = None -> Ending st r ->
  handleSubmit st = ((prelude ++ resultTrace st r)%list, Returns tt).
Proof.
  intros Hv Hr. rewrite handleSubmit_validate, Hv.
  destruct (createAccount_result st) as [r' [Hr' ->]].
  now rewrite (Ending_unique st r r' Hr Hr').
Qed.

(** Every attempt is rejected by validation or reaches one of the endings. *)
Lemma handleSubmit_total (st : FormState) :
  (exists msg, validate st = Some msg /\
               handleSubmit st = (rejected msg, Returns tt)) \/
  (validate st = None /\
   exists r, Ending st r /\
             handleSubmit st = ((prelude ++ resultTrace st r)%list, Returns tt)).
Proof.
  destruct (validate st) as [msg|] eqn:Hv.
  - left. exists msg. split; [reflexivity|now apply handleSubmit_rejected].
  - right. split; [reflexivity|].
    destruct (createAccount_result st) as [r [Hr _]].
    exists r. split; [assumption|now apply handleSubmit_ending].
Qed.

Lemma passwordChecks_validate (st : FormState) :
  passwordChecksPass st ->
  checkStrength st = None /\ checkMatch st = None.
Proof.
  unfold passwordChecksPass, checkStrength, checkMatch.
  intros [Hs Hm]. split.
  - destruct (validatePassword st.(password)) as [m|]; [|reflexivity].
    simpl in Hs. now rewrite Hs.
  - now rewrite Hm, String.eqb_refl.
Qed.

Lemma checkMatch_message (st : FormState) (msg : string) :
  checkMatch st = Some msg -> msg = mismatchMessage.
Proof.
  unfold checkMatch.
  destruct (String.eqb _ _); [discriminate|now intros [= <-]].
Qed.

Lemma checkStudentId_message (st : FormState) (msg : string) :
  checkStudentId st = Some msg ->
  msg = requiredMessage \/ msg = formatMessage.
Proof.
  unfold checkStudentId.
  destruct (String.eqb st.(role) "student"); [|discriminate].
  destruct (String.eqb st.(studentId) ""); [intros [= <-]; now left|].
  destruct (Regex.test _ _); [discriminate|intros [= <-]; now right].
Qed.

Lemma checkStrength_message (st : FormState) (msg : string) :
  checkStrength st = Some msg ->
  validatePassword st.(password) = Some msg /\ msg <> "".
Proof.
  unfold checkStrength.
  destruct (validatePassword st.(password)) as [m|]; [|discriminate].
  destruct m as [|c m]; [discriminate|].
  intros [= <-]. split; [reflexivity|discriminate].
Qed.

(** At most one effect of a rejected attempt or of an ending sets a message. *)
Lemma rejected_one_message (msg : string) :
  List.length (filter isErrorMessage (rejected msg)) = 1%nat.
Proof. reflexivity. Qed.

Lemma ending_messages (st : FormState) (r : AccountResult) :
  (List.length (filter isErrorMessage (prelude ++ resultTrace st r)) <= 1)%nat.
Proof. destruct r; simpl; lia. Qed.

(** ** The claims *)

(** C1. At submission the checks run in the order (1) password strength by
    the external policy, (2) password/confirmPassword equality, (3) email
    domain membership, (4) for a student, studentId presence and pattern;
    the handler stops at the first failing check and surfaces its message
    only: the attempt's effects are then exactly the reset, one [setError]
    with that message and the busy flag cleared, with no network call.  When
    all four pass it goes on to the network calls.  No attempt sets more than
    one message.  The messages of checks (2)-(4) are fixed and pairwise
    distinct; check (1) forwards the non-empty message of the policy. *)
Theorem C1_validation_order (st : FormState) :
  handleSubmit st =
    match checkStrength st with
    | Some m1 => (rejected m1, Returns tt)
    | None =>
      match checkMatch st with
      | Some m2 => (rejected m2, Returns tt)
      | None =>
        match checkDomain st with
        | Some m3 => (rejected m3, Returns tt)
        | None =>
          match checkStudentId st with
          | Some m4 => (rejected m4, Returns tt)
          | None =>
              ((prelude ++ trace (createAccount st))%list,
               outcome (createAccount st))
          end
        end
      end
    end
  /\ (List.length (filter isErrorMessage (trace (handleSubmit st))) <= 1)%nat
  /\ (forall msg, In (SetError (Some msg)) (trace (handleSubmit st)) ->
                  error (afterSubmit st) = Some msg)
  /\ (forall m, checkStrength st = Some m ->
                validatePassword st.(password) = Some m /\ m <> "")
  /\ (forall m, checkMatch st = Some m -> m = mismatchMessage)
  /\ (forall m, checkDomain st = Some m -> m = domainMessage)
  /\ (forall m, checkStudentId st = Some m ->
                m = requiredMessage \/ m = formatMessage)
  /\ NoDup [mismatchMessage; domainMessage; requiredMessage; formatMessage].
Proof.
  split; [|split; [|split; [|split; [|split; [|split; [|split]]]]]].
  - rewrite handleSubmit_validate. unfold validate, checks.
    cbn [firstFailure].
    destruct (checkStrength st); [reflexivity|].
    destruct (checkMatch st); [reflexivity|].
    destruct (checkDomain st); [reflexivity|].
    destruct (checkStudentId st); reflexivity.
  - destruct (handleSubmit_total st) as [[msg [_ ->]]|[_ [r [_ ->]]]].
    + cbn [trace fst]. now rewrite rejected_one_message.
    + cbn [trace fst]. apply ending_messages.
  - intros msg. unfold afterSubmit.
    destruct (handleSubmit_total st) as [[m [_ ->]]|[_ [r [_ ->]]]];
      cbn [trace fst].
    + intros Hin. simpl in Hin.
      repeat (destruct Hin as [Hin|Hin]; try discriminate Hin);
        try contradiction.
      now injection Hin as ->.
    + destruct r; intros Hin; simpl in Hin;
        repeat (destruct Hin as [Hin|Hin]; try discriminate Hin);
        try contradiction; now injection Hin as <-.
  - apply checkStrength_message.
  - apply checkMatch_message.
  - apply checkDomain_message.
  - apply checkStudentId_message.
  - repeat constructor; simpl; intuition discriminate.
Qed.

(** An email accepted by the domain check ends in one of the two suffixes. *)
Lemma checkDomain_suffix (st : FormState) :
  checkDomain st = None ->
  JSString.endsWith st.(email) "@ashesi.edu.gh" = true \/
  JSString.endsWith st.(email) "@aucampus.onmicrosoft.com" = true.
Proof.
  unfold checkDomain, allowedDomains.
  destruct (JSString.split "@"%char st.(email)) as [|a [|b [|c l]]] eqn:Es;
    try discriminate.
  apply split_two in Es. cbn [existsb].
  destruct (String.eqb_spec b "ashesi.edu.gh") as [->|_].
  { intros _. left. rewrite Es. apply endsWith_app. }
  destruct (String.eqb_spec b "aucampus.onmicrosoft.com") as [->|_].
  { intros _. right. rewrite Es. apply endsWith_app. }
  discriminate.
Qed.

(** C2. When the two password checks pass, every email that ends neither in
    [@ashesi.edu.gh] nor in [@aucampus.onmicrosoft.com] is rejected with the
    domain error: the handler sets that message, clears the busy flag and
    returns without any network call. *)
Theorem C2_foreign_domain_rejected (st : FormState) :
  passwordChecksPass st ->
  JSString.endsWith st.(email) "@ashesi.edu.gh" = false ->
  JSString.endsWith st.(email) "@aucampus.onmicrosoft.com" = false ->
  handleSubmit st = (rejected domainMessage, Returns tt)
  /\ error (afterSubmit st) = Some domainMessage
  /\ isLoading (afterSubmit st) = false
  /\ externalCalls (trace (handleSubmit st)) = [].
Proof.
  intros Hpw H1 H2.
  destruct (passwordChecks_validate st Hpw) as [Hs Hm].
  assert (Hd : checkDomain st = Some domainMessage).
  { destruct (checkDomain st) as [m|] eqn:Ed.
    - now rewrite (checkDomain_message st m Ed).
    - destruct (checkDomain_suffix st Ed); congruence. }
  assert (Hv : validate st = Some domainMessage).
  { unfold validate, checks. cbn [firstFailure]. now rewrite Hs, Hm, Hd. }
  unfold afterSubmit. rewrite (handleSubmit_rejected st _ Hv).
  repeat split.
Qed.

(** The pattern [^\d{4}20\d{2}$] accepts exactly the strings made of four
    digits, the literal 20 and two digits. *)
Lemma studentIdPattern_wellFormed (s : string) :
  Regex.test studentIdPattern s = true <-> wellFormedStudentId s.
Proof.
  unfold wellFormedStudentId. split.
  - destruct s as [|a [|b [|c [|d [|t [|z [|e [|f [|g s]]]]]]]]];
      cbn; intros H; rewrite ?andb_false_r in H; try discriminate H.
    repeat (apply andb_true_iff in H as [? H]).
    exists a, b, c, d, e, f.
    match goal with
    | Ht : Ascii.eqb t _ = true, Hz : Ascii.eqb z _ = true |- _ =>
        apply Ascii.eqb_eq in Ht; apply Ascii.eqb_eq in Hz; subst t z
    end.
    repeat split; assumption.
  - intros (a & b & c & d & e & f & Ha & Hb & Hc & Hd & He & Hf & ->).
    cbn. now rewrite Ha, Hb, Hc, Hd, He, Hf.
Qed.

(** C3. For a student the handler requires the studentId to be non-empty
    and to match [^\d{4}20\d{2}$].  Every attempt whose studentId does not
    match is rejected before any network call; when the password and domain
    checks have passed, the rejection carries a student-ID message ("Student
    ID is required" for the empty field, the format message otherwise), and a
    matching value lets the attempt go on to the network calls.  The pattern
    accepts exactly four digits, then 20, then two digits (8 characters), and
    accepts "12342023". *)
Theorem C3_student_id_check (st : FormState) :
  st.(role) = "student" ->
  (Regex.test studentIdPattern st.(studentId) = false ->
   exists msg, handleSubmit st = (rejected msg, Returns tt))
  /\ (passwordChecksPass st -> checkDomain st = None ->
      handleSubmit st =
        (if Regex.test studentIdPattern st.(studentId)
         then ((prelude ++ trace (createAccount st))%list,
               outcome (createAccount st))
         else (rejected (if String.eqb st.(studentId) ""
                         then requiredMessage else formatMessage),
               Returns tt)))
  /\ (Regex.test studentIdPattern st.(studentId) = true <->
      wellFormedStudentId st.(studentId))
  /\ (wellFormedStudentId st.(studentId) ->
      String.length st.(studentId) = 8%nat)
  /\ Regex.test studentIdPattern "12342023" = true
  /\ Regex.test studentIdPattern "12340099" = false
  /\ Regex.test studentIdPattern "1234" = false.
Proof.
  intros Hrole.
  assert (Hid : checkStudentId st =
                if Regex.test studentIdPattern st.(studentId) then None
                else Some (if String.eqb st.(studentId) ""
                           then requiredMessage else formatMessage)).
  { unfold checkStudentId. rewrite Hrole.
    cbn [String.eqb Ascii.eqb Bool.eqb].
    destruct (String.eqb_spec st.(studentId) "") as [->|_]; [reflexivity|].
    destruct (Regex.test studentIdPattern st.(studentId)); reflexivity. }
  split; [|split; [|split; [|split; [|repeat split]]]].
  - intros Hno. rewrite Hno in Hid.
    destruct (validate st) as [msg|] eqn:Hv.
    + exists msg. now apply handleSubmit_rejected.
    + exfalso. unfold validate, checks in Hv. cbn [firstFailure] in Hv.
      destruct (checkStrength st); [discriminate|].
      destruct (checkMatch st); [discriminate|].
      destruct (checkDomain st); [discriminate|].
      rewrite Hid in Hv. discriminate.
  - intros Hpw Hd.
    destruct (passwordChecks_validate st Hpw) as [Hs Hm].
    rewrite handleSubmit_validate. unfold validate, checks.
    cbn [firstFailure]. rewrite Hs, Hm, Hd, Hid.
    destruct (Regex.test studentIdPattern st.(studentId)); reflexivity.
  - apply studentIdPattern_wellFormed.
  - intros (a & b & c & d & e & f & _ & _ & _ & _ & _ & _ & ->). reflexivity.
Qed.

(** C4. The password check is exact string equality.  When the strength
    policy accepts the password, [validateForm] answers true without setting
    any error if password and confirmPassword are the same string, and
    otherwise sets "Passwords don't match" and answers false; the handler
    then clears the busy flag and returns before the domain check.  Whatever
    the policy says, an attempt whose two passwords differ is rejected before
    any network call. *)
Theorem C4_password_equality (st : FormState) :
  (String.eqb st.(password) st.(confirmPassword) = true <->
   st.(password) = st.(confirmPassword))
  /\ (st.(password) <> st.(confirmPassword) ->
      exists msg, handleSubmit st = (rejected msg, Returns tt))
  /\ (JSString.truthy_opt (validatePassword st.(password)) = false ->
      validateForm st =
        (if String.eqb st.(password) st.(confirmPassword)
         then ([], Returns true)
         else ([SetError (Some mismatchMessage)], Returns false))
      /\ handleSubmit st =
           (if String.eqb st.(password) st.(confirmPassword)
            then match firstFailure [checkDomain; checkStudentId] st with
                 | Some msg => (rejected msg, Returns tt)
                 | None => ((prelude ++ trace (createAccount st))%list,
                            outcome (createAccount st))
                 end
            else (rejected mismatchMessage, Returns tt)))
  /\ String.eqb "Abc123!@" "Abc123!@" = true
  /\ String.eqb "Abc123!@" "different" = false.
Proof.
  split; [|split; [|split; [|split; reflexivity]]].
  - apply String.eqb_eq.
  - intros Hne. apply String.eqb_neq in Hne.
    destruct (validate st) as [msg|] eqn:Hv.
    + exists msg. now apply handleSubmit_rejected.
    + exfalso. unfold validate, checks in Hv. cbn [firstFailure] in Hv.
      destruct (checkStrength st); [discriminate|].
      unfold checkMatch in Hv. rewrite Hne in Hv. discriminate.
  - intros Hs.
    assert (Hc : checkStrength st = None).
    { unfold checkStrength.
      destruct (validatePassword st.(password)) as [m|]; [|reflexivity].
      simpl in Hs. now rewrite Hs. }
    split.
    + rewrite validateForm_checks. cbn [firstFailure]. rewrite Hc.
      unfold checkMatch.
      destruct (String.eqb st.(password) st.(confirmPassword)); reflexivity.
    + rewrite handleSubmit_validate. unfold validate, checks.
      cbn [firstFailure]. rewrite Hc. unfold checkMatch.
      destruct (String.eqb st.(password) st.(confirmPassword)); reflexivity.
Qed.

(** For a role other than student the calls do not depend on the draft's
    studentId. *)
Lemma requests_ignore_studentId (st : FormState) (v : string) :
  String.eqb st.(role) "student" = false ->
  signUpRequest (withStudentId st v) = signUpRequest st /\
  forall uid, profileRow (withStudentId st v) uid = profileRow st uid.
Proof.
  intros Hr.
  unfold signUpRequest, profileRow, studentIdOrNull, roleId, withStudentId.
  cbn [role email password firstName lastName studentId].
  now rewrite Hr.
Qed.

Lemma handleSubmit_ignores_studentId (st : FormState) (v : string) :
  String.eqb st.(role) "student" = false ->
  handleSubmit (withStudentId st v) = handleSubmit st.
Proof.
  intros Hr.
  destruct (requests_ignore_studentId st v Hr) as [Hreq Hrow].
  unfold handleSubmit, validateForm, createAccount.
  rewrite Hreq.
  cbn [withStudentId role email password confirmPassword].
  rewrite Hr.
  destruct createClient as [c|e]; [|reflexivity].
  cbn [await bind emit app].
  destruct (c.(auth_signUp) (signUpRequest st)) as [resp|e]; [|reflexivity].
  cbn [bind app].
  destruct resp.(Auth.error); [reflexivity|].
  destruct resp.(Auth.user) as [u|]; [|reflexivity].
  cbn [ret bind]. now rewrite Hrow.
Qed.

(** C5. The [student_id] and [role_id] sent to the auth service and to the
    data store are decided by the role alone: [role_id] is 3 for a student
    and 2 otherwise, and [student_id] is the draft's studentId for a student
    and null otherwise.  For a role other than student the whole attempt is
    the same whatever the draft's studentId holds. *)
Theorem C5_role_fields (st : FormState) :
  (forall e sid rid,
      In e (trace (handleSubmit st)) ->
      callFields e = Some (sid, rid) ->
      rid = (if String.eqb st.(role) "student" then 3%Z else 2%Z) /\
      sid = (if String.eqb st.(role) "student"
             then Some st.(studentId) else None))
  /\ (st.(role) <> "student" ->
      (forall e sid rid,
          In e (trace (handleSubmit st)) ->
          callFields e = Some (sid, rid) -> sid = None /\ rid = 2%Z)
      /\ forall v, handleSubmit (withStudentId st v) = handleSubmit st).
Proof.
  assert (Hgen : forall e sid rid,
      In e (trace (handleSubmit st)) ->
      callFields e = Some (sid, rid) ->
      rid = (if String.eqb st.(role) "student" then 3%Z else 2%Z) /\
      sid = (if String.eqb st.(role) "student"
             then Some st.(studentId) else None)).
  { intros e sid rid Hin Hf.
    destruct (handleSubmit_total st) as [[m [_ Heq]]|[_ [r [_ Heq]]]];
      rewrite Heq in Hin; cbn [trace fst] in Hin.
    - simpl in Hin.
      repeat (destruct Hin as [<-|Hin]; try discriminate Hf).
      contradiction.
    - destruct r; simpl in Hin;
        repeat (destruct Hin as [<-|Hin];
                [try discriminate Hf;
                 try (injection Hf as <- <-; split; reflexivity)|]);
        contradiction. }
  split; [exact Hgen|].
  intros Hne.
  assert (Hr : String.eqb st.(role) "student" = false)
    by now apply String.eqb_neq.
  split.
  - intros e sid rid Hin Hf.
    destruct (Hgen e sid rid Hin Hf) as [-> ->]. now rewrite Hr.
  - intros v. now apply handleSubmit_ignores_studentId.
Qed.

(** C6. The profile insert is attempted only after the auth call has
    created the account: whenever an insert occurs in an attempt, the auth
    call came just before it and answered with a user and no error.  When the
    auth call reports or raises an error, the attempt ends there: no insert
    is attempted, and the error's message is put in the error state as it
    is, the busy flag cleared and the succeeded flag untouched. *)
Theorem C6_auth_failure_stops (st : FormState) :
  (forall row,
      In (UsersInsert row) (trace (handleSubmit st)) ->
      exists c uid rest,
        createClient = Returns c /\ authSucceeds c st uid /\
        row = profileRow st uid /\
        trace (handleSubmit st) =
          (prelude ++ AuthSignUp (signUpRequest st)
                   :: UsersInsert row :: rest)%list)
  /\ (forall c e,
        validate st = None -> createClient = Returns c ->
        authFails c st e ->
        handleSubmit st =
          ((prelude ++ [AuthSignUp (signUpRequest st);
                        SetError (Some e.(message));
                        SetIsLoading false])%list, Returns tt)
        /\ filter isInsert (trace (handleSubmit st)) = []
        /\ error (afterSubmit st) = Some e.(message)
        /\ isLoading (afterSubmit st) = false
        /\ showSuccess (afterSubmit st) = showSuccess st).
Proof.
  split.
  - intros row Hin.
    destruct (handleSubmit_total st) as [[m [_ Heq]]|[_ [r [Hr Heq]]]];
      rewrite Heq in *; cbn [trace fst] in *.
    + simpl in Hin.
      repeat (destruct Hin as [Hin|Hin]; try discriminate Hin).
      contradiction.
    + destruct Hr; simpl in Hin;
        repeat (destruct Hin as [Hin|Hin]; try discriminate Hin);
        try contradiction;
        injection Hin as <-; eexists _, _, _;
        (split; [eassumption|split; [eassumption|split; reflexivity]]).
  - intros c e Hv Hc Hf.
    assert (Hr : Ending st (AuthFailed e)) by now apply EndAuthFailed with c.
    unfold afterSubmit. rewrite (handleSubmit_ending st _ Hv Hr).
    repeat split.
Qed.

(** C7. With valid input, an account created by the auth call and a failing
    insert, the handler puts the insert error's message in the error state,
    never sets the succeeded flag and registers no redirect timer.  The
    insert is its last external call: nothing is sent to undo the account. *)
Theorem C7_insert_failure (st : FormState) (c : Client) (uid : string)
        (e : JsError) :
  validate st = None ->
  createClient = Returns c ->
  authSucceeds c st uid ->
  insertFails c st uid e ->
  handleSubmit st =
    ((prelude ++ [AuthSignUp (signUpRequest st);
                  UsersInsert (profileRow st uid);
                  SetError (Some e.(message));
                  SetIsLoading false])%list, Returns tt)
  /\ error (afterSubmit st) = Some e.(message)
  /\ filter isSetShowSuccess (trace (handleSubmit st)) = []
  /\ showSuccess (afterSubmit st) = showSuccess st
  /\ filter isTimer (trace (handleSubmit st)) = []
  /\ externalCalls (trace (handleSubmit st)) =
       [AuthSignUp (signUpRequest st); UsersInsert (profileRow st uid)].
Proof.
  intros Hv Hc Ha Hi.
  assert (Hr : Ending st (ProfileInsertFailed uid e))
    by now apply EndInsertFailed with c.
  unfold afterSubmit. rewrite (handleSubmit_ending st _ Hv Hr).
  repeat split.
Qed.

(** C8. With valid input and both external calls succeeding, the handler
    sets the succeeded flag and registers one timer of 5000 ms whose callback
    pushes exactly one route: [/dashboard/student] when the role is student
    and [/dashboard/admin] otherwise. *)
Theorem C8_success_redirect (st : FormState) (c : Client) (uid : string) :
  validate st = None ->
  createClient = Returns c ->
  authSucceeds c st uid ->
  insertSucceeds c st uid ->
  handleSubmit st =
    ((prelude ++ [AuthSignUp (signUpRequest st);
                  UsersInsert (profileRow st uid);
                  SetShowSuccess true;
                  SetTimeout (RedirectByRole st.(role)) 5000])%list,
     Returns tt)
  /\ showSuccess (afterSubmit st) = true
  /\ filter isTimer (trace (handleSubmit st)) =
       [SetTimeout (RedirectByRole st.(role)) 5000]
  /\ runCallback (RedirectByRole st.(role)) =
       [Push (if String.eqb st.(role) "student"
              then "/dashboard/student" else "/dashboard/admin")].
Proof.
  intros Hv Hc Ha Hi.
  assert (Hr : Ending st (Succeeded uid)) by now apply EndSucceeded with c.
  unfold afterSubmit. rewrite (handleSubmit_ending st _ Hv Hr).
  repeat split.
  unfold runCallback. destruct (String.eqb st.(role) "student"); reflexivity.
Qed.

(** No external call is made twice in one attempt. *)
Lemma calls_once (st : FormState) :
  (List.length (filter isSignUp (trace (handleSubmit st))) <= 1)%nat /\
  (List.length (filter isInsert (trace (handleSubmit st))) <= 1)%nat.
Proof.
  destruct (handleSubmit_total st) as [[m [_ ->]]|[_ [r [_ ->]]]];
    cbn [trace fst].
  - simpl. lia.
  - destruct r; simpl; lia.
Qed.

(** Every attempt fails with a message or succeeds. *)
Lemma failure_or_success (st : FormState) :
  (exists msg, Failure st msg) \/
  (validate st = None /\ exists uid, Ending st (Succeeded uid)).
Proof.
  destruct (handleSubmit_total st) as [[m [Hv _]]|[Hv [r [Hr _]]]].
  - left. exists m. now apply FailValidation.
  - destruct r as [e|e|uid e|uid].
    + left. exists e.(message). now apply FailAccount with (ClientUnavailable e).
    + left. exists e.(message). now apply FailAccount with (AuthFailed e).
    + left. exists e.(message).
      now apply FailAccount with (ProfileInsertFailed uid e).
    + right. split; [assumption|]. now exists uid.
Qed.

(** C9. Every failing path of a submission (a validation failure, an
    unavailable client, an auth error, a profile insert error) ends with the
    triggering message in the error state and the busy flag cleared, these
    being the handler's last two effects; the succeeded flag is untouched, no
    timer is registered and the handler returns normally.  No external call
    is made twice in an attempt.  An attempt that does not succeed is on one
    of these paths. *)
Theorem C9_failure_returns_idle (st : FormState) :
  (forall msg,
      Failure st msg ->
      error (afterSubmit st) = Some msg
      /\ isLoading (afterSubmit st) = false
      /\ showSuccess (afterSubmit st) = showSuccess st
      /\ (exists t, trace (handleSubmit st) =
                    (t ++ [SetError (Some msg); SetIsLoading false])%list)
      /\ filter isTimer (trace (handleSubmit st)) = []
      /\ outcome (handleSubmit st) = Returns tt)
  /\ (List.length (filter isSignUp (trace (handleSubmit st))) <= 1)%nat
  /\ (List.length (filter isInsert (trace (handleSubmit st))) <= 1)%nat
  /\ ((exists msg, Failure st msg) \/
      (validate st = None /\ exists uid, Ending st (Succeeded uid))).
Proof.
  split; [|split; [apply calls_once|split;
                   [apply calls_once|apply failure_or_success]]].
  intros msg Hf. unfold afterSubmit.
  destruct Hf as [msg Hv|r e Hv Hr Hfail].
  - rewrite (handleSubmit_rejected st _ Hv).
    repeat split. now exists prelude.
  - rewrite (handleSubmit_ending st _ Hv Hr).
    destruct r as [e'|e'|uid e'|uid]; simpl in Hfail;
      try discriminate Hfail; injection Hfail as ->; repeat split.
    + now exists prelude.
    + now exists (prelude ++ [AuthSignUp (signUpRequest st)])%list.
    + now exists (prelude ++ [AuthSignUp (signUpRequest st);
                              UsersInsert (profileRow st uid)])%list.
Qed.

(** C10. The handler sets the busy flag first thing; on the fully
    successful path no effect clears it, so the component is still busy after
    the handler, and the timer callback only pushes a route.  The busy flag
    is left set exactly on that path. *)
Theorem C10_busy_on_success (st : FormState) :
  (exists t, trace (handleSubmit st) =
             (PreventDefault :: SetIsLoading true :: t)%list)
  /\ (forall uid,
        validate st = None -> Ending st (Succeeded uid) ->
        filter clearsBusy (trace (handleSubmit st)) = []
        /\ isLoading (afterSubmit st) = true
        /\ showSuccess (afterSubmit st) = true)
  /\ (isLoading (afterSubmit st) = true <->
      validate st = None /\ exists uid, Ending st (Succeeded uid)).
Proof.
  split; [|split].
  - destruct (handleSubmit_total st) as [[m [_ ->]]|[_ [r [_ ->]]]];
      cbn [trace fst]; eexists; reflexivity.
  - intros uid Hv Hr. unfold afterSubmit.
    rewrite (handleSubmit_ending st _ Hv Hr). repeat split.
  - unfold afterSubmit.
    destruct (handleSubmit_total st) as [[m [Hv ->]]|[Hv [r [Hr ->]]]];
      cbn [trace fst].
    + split; [discriminate|]. intros [Hv' _]. congruence.
    + destruct r as [e|e|uid e|uid];
        try (split; [discriminate|];
             intros [_ [uid' Hr']];
             pose proof (Ending_unique st _ _ Hr Hr') as Hu; discriminate Hu).
      split; [|reflexivity]. intros _. split; [assumption|now exists uid].
Qed.

(** ** Further properties of the page *)

Lemma split_length (sep : ascii) (s : string) :
  List.length (JSString.split sep s) = S (countChar sep s).
Proof.
  induction s as [|c rest IH]; [reflexivity|].
  cbn [JSString.split countChar].
  destruct (Ascii.eqb c sep).
  - cbn [List.length]. rewrite IH. reflexivity.
  - destruct (JSString.split sep rest) as [|p ps]; [discriminate IH|].
    cbn [List.length] in *. lia.
Qed.

Lemma split_parts_clean (sep : ascii) (s : string) :
  Forall (fun part => countChar sep part = 0%nat) (JSString.split sep s).
Proof.
  induction s as [|c rest IH]; cbn [JSString.split].
  - constructor; [reflexivity|constructor].
  - destruct (Ascii.eqb c sep) eqn:Ec.
    + constructor; [reflexivity|exact IH].
    + destruct (JSString.split sep rest) as [|p ps]; [repeat constructor|].
      * cbn [countChar]. now rewrite Ec.
      * inversion IH as [|? ? Hp Hps]; subst.
        constructor; [|exact Hps].
        cbn [countChar]. now rewrite Ec.
Qed.

Lemma split_clean (sep : ascii) (s : string) :
  countChar sep s = 0%nat -> JSString.split sep s = [s].
Proof.
  induction s as [|c rest IH]; [reflexivity|].
  cbn [countChar JSString.split].
  destruct (Ascii.eqb c sep); [discriminate|].
  intros H. now rewrite IH.
Qed.

Lemma split_app_sep (sep : ascii) (a b : string) :
  countChar sep a = 0%nat ->
  JSString.split sep (a ++ String sep b) = a :: JSString.split sep b.
Proof.
  induction a as [|c a IH]; cbn [append countChar JSString.split].
  - intros _. now rewrite Ascii.eqb_refl.
  - destruct (Ascii.eqb c sep); [discriminate|].
    intros H. now rewrite IH.
Qed.

(** X1. [split] cuts at every separator: a string with n separators gives
    n+1 parts, none of which contains the separator, and joining the parts
    with the separator gives the string back; the empty string gives one
    empty part.  Conversely two separator-free strings joined by one
    separator split back into themselves. *)
Theorem X1_split_parts (sep : ascii) (s : string) :
  List.length (JSString.split sep s) = S (countChar sep s)
  /\ Forall (fun part => countChar sep part = 0%nat) (JSString.split sep s)
  /\ String.concat (String sep EmptyString) (JSString.split sep s) = s
  /\ (forall a b, countChar sep a = 0%nat -> countChar sep b = 0%nat ->
                  JSString.split sep (a ++ String sep b) = [a; b]).
Proof.
  split; [apply split_length|].
  split; [apply split_parts_clean|].
  split; [apply concat_split|].
  intros a b Ha Hb. now rewrite split_app_sep, (split_clean sep b).
Qed.

(** The handler's domain test is [emailRejected] of the draft's email. *)
Lemma handleSubmit_emailRejected (st : FormState) :
  passwordChecksPass st ->
  handleSubmit st =
    if emailRejected st.(email) then (rejected domainMessage, Returns tt)
    else match checkStudentId st with
         | Some msg => (rejected msg, Returns tt)
         | None => ((prelude ++ trace (createAccount st))%list,
                    outcome (createAccount st))
         end.
Proof.
  intros Hpw.
  destruct (passwordChecks_validate st Hpw) as [Hs Hm].
  rewrite handleSubmit_validate. unfold validate, checks.
  cbn [firstFailure]. rewrite Hs, Hm.
  unfold emailRejected. pose proof (domain_test st) as Hd. cbv zeta in Hd.
  cbv zeta. rewrite Hd.
  destruct (checkDomain st) as [m|] eqn:Ed.
  - now rewrite (checkDomain_message st m Ed).
  - destruct (checkStudentId st); reflexivity.
Qed.

Lemma emailRejected_iff (address : string) :
  emailRejected address = false <->
  exists name,
    countChar "@"%char name = 0%nat /\
    (address = name ++ "@ashesi.edu.gh" \/
     address = name ++ "@aucampus.onmicrosoft.com").
Proof.
  unfold emailRejected. cbv zeta. split.
  - pose proof (split_parts_clean "@"%char address) as Hclean.
    destruct (JSString.split "@"%char address) as [|a [|b [|c l]]] eqn:Es;
      try discriminate.
    apply split_two in Es.
    inversion Hclean as [|? ? Ha _]; subst.
    cbn [List.length Nat.eqb negb orb JSString.index nth_error
         JSString.strict_neq].
    intros H. exists a. split; [exact Ha|].
    destruct (String.eqb_spec b "ashesi.edu.gh") as [->|_]; [now left|].
    destruct (String.eqb_spec b "aucampus.onmicrosoft.com") as [->|_];
      [now right|discriminate H].
  - intros [name [Hn [->| ->]]];
      cbn [append]; (rewrite split_app_sep by exact Hn);
      (rewrite split_clean by reflexivity); reflexivity.
Qed.

(** X2. The domain test of the handler accepts exactly the addresses made
    of a part free of [@] (possibly empty) followed by [@ashesi.edu.gh] or
    [@aucampus.onmicrosoft.com], compared case-sensitively; once the two
    password checks have passed an address outside this set is rejected with
    the domain message and one inside it moves on to the student-ID check. *)
Theorem X2_accepted_addresses (st : FormState) :
  (emailRejected st.(email) = false <->
   exists name,
     countChar "@"%char name = 0%nat /\
     (st.(email) = name ++ "@ashesi.edu.gh" \/
      st.(email) = name ++ "@aucampus.onmicrosoft.com"))
  /\ (passwordChecksPass st ->
      handleSubmit st =
        if emailRejected st.(email) then (rejected domainMessage, Returns tt)
        else match checkStudentId st with
             | Some msg => (rejected msg, Returns tt)
             | None => ((prelude ++ trace (createAccount st))%list,
                        outcome (createAccount st))
             end).
Proof.
  split; [apply emailRejected_iff|apply handleSubmit_emailRejected].
Qed.

(** X3. An email that does not contain exactly one [@] (none, as in the
    empty field, or several, even when it ends in an allowed domain) is
    rejected with the domain message once the password checks have passed,
    without any network call. *)
Theorem X3_one_at_sign (st : FormState) :
  passwordChecksPass st ->
  countChar "@"%char st.(email) <> 1%nat ->
  handleSubmit st = (rejected domainMessage, Returns tt)
  /\ externalCalls (trace (handleSubmit st)) = [].
Proof.
  intros Hpw Hn.
  assert (Hr : emailRejected st.(email) = true).
  { unfold emailRejected. cbv zeta. rewrite split_length.
    destruct (countChar "@"%char st.(email)) as [|[|n]];
      [reflexivity|contradiction|reflexivity]. }
  rewrite (handleSubmit_emailRejected st Hpw), Hr. split; reflexivity.
Qed.

(** What a draft that passes validation looks like, in the code's terms. *)
Lemma validate_None (st : FormState) :
  validate st = None ->
  JSString.truthy_opt (validatePassword st.(password)) = false
  /\ st.(password) = st.(confirmPassword)
  /\ emailRejected st.(email) = false
  /\ (st.(role) = "student" -> wellFormedStudentId st.(studentId)).
Proof.
  unfold validate, checks. cbn [firstFailure].
  destruct (checkStrength st) as [m|] eqn:Es; [discriminate|].
  destruct (checkMatch st) as [m|] eqn:Em; [discriminate|].
  destruct (checkDomain st) as [m|] eqn:Ed; [discriminate|].
  destruct (checkStudentId st) as [m|] eqn:Ei; [discriminate|].
  intros _. split; [|split; [|split]].
  - unfold checkStrength in Es. unfold JSString.truthy_opt.
    destruct (validatePassword st.(password)) as [m|]; [|reflexivity].
    destruct (JSString.truthy m); [discriminate|reflexivity].
  - unfold checkMatch in Em.
    destruct (String.eqb_spec st.(password) st.(confirmPassword));
      [assumption|discriminate].
  - pose proof (domain_test st) as Hd. cbv zeta in Hd.
    unfold emailRejected. cbv zeta. now rewrite Hd, Ed.
  - intros Hr. unfold checkStudentId in Ei. rewrite Hr in Ei.
    cbn [String.eqb Ascii.eqb Bool.eqb] in Ei.
    destruct (String.eqb st.(studentId) ""); [discriminate|].
    destruct (Regex.test studentIdPattern st.(studentId)) eqn:Et;
      [|discriminate].
    now apply studentIdPattern_wellFormed.
Qed.

(** X4. Nothing is sent for a draft that fails a check: whenever an attempt
    makes an external call, the policy accepted the password, the two
    passwords are equal, the email passed the domain test and, for a
    student, the studentId is four digits, 20 and two digits. *)
Theorem X4_calls_only_when_valid (st : FormState) (e : Effect) :
  In e (trace (handleSubmit st)) ->
  isExternalCall e = true ->
  JSString.truthy_opt (validatePassword st.(password)) = false
  /\ st.(password) = st.(confirmPassword)
  /\ emailRejected st.(email) = false
  /\ (st.(role) = "student" -> wellFormedStudentId st.(studentId)).
Proof.
  intros Hin Hcall.
  destruct (handleSubmit_total st) as [[m [_ Heq]]|[Hv _]].
  - rewrite Heq in Hin. cbn [trace fst] in Hin. simpl in Hin.
    repeat (destruct Hin as [<-|Hin]; [discriminate Hcall|]).
    contradiction.
  - now apply validate_None.
Qed.

(** X5. The profile row repeats what was sent to the auth service: same
    email, names, role_id and student_id, under the id of the user the auth
    call returned; its password column is always the placeholder
    [hashed_by_supabase], never the typed password. *)
Theorem X5_profile_row (st : FormState) (row : Users.Row) :
  In (UsersInsert row) (trace (handleSubmit st)) ->
  row.(Users.password) = "hashed_by_supabase"
  /\ row.(Users.email) = st.(email)
  /\ row.(Users.fname) = st.(firstName)
  /\ row.(Users.lname) = st.(lastName)
  /\ In (AuthSignUp (signUpRequest st)) (trace (handleSubmit st))
  /\ row.(Users.role_id)
     = (signUpRequest st).(Auth.options).(Auth.data).(Auth.role_id)
  /\ row.(Users.student_id)
     = (signUpRequest st).(Auth.options).(Auth.data).(Auth.student_id)
  /\ exists c resp u,
       createClient = Returns c
       /\ c.(auth_signUp) (signUpRequest st) = Returns resp
       /\ resp.(Auth.user) = Some u
       /\ row.(Users.id) = u.(Auth.id).
Proof.
  intros Hin.
  destruct (handleSubmit_total st) as [[m [_ Heq]]|[_ [r [Hr Heq]]]];
    rewrite Heq in *; cbn [trace fst] in *.
  { simpl in Hin.
    repeat (destruct Hin as [Hin|Hin]; try discriminate Hin).
    contradiction. }
  assert (Hrow : exists c uid,
             createClient = Returns c /\ authSucceeds c st uid /\
             row = profileRow st uid /\
             In (AuthSignUp (signUpRequest st))
                (prelude ++ resultTrace st r)).
  { destruct Hr; simpl in Hin;
      repeat (destruct Hin as [Hin|Hin]; try discriminate Hin);
      try contradiction;
      injection Hin as <-; eexists _, _;
      (split; [eassumption|split; [eassumption|split; [reflexivity|]]]);
      simpl; tauto. }
  destruct Hrow as (c & uid & Hc & (resp & u & Hs & _ & Hu & Hid) & -> & Hsu).
  repeat (split; [first [reflexivity|exact Hsu]|]).
  exists c, resp, u. repeat split; try assumption.
  now rewrite Hid.
Qed.

Lemma applyTrace_sameDraft (t : list Effect) (st : FormState) :
  sameDraft (applyTrace st t) st.
Proof.
  unfold applyTrace. revert st.
  induction t as [|e t IH]; intros st; cbn [fold_left].
  - repeat split.
  - destruct (IH (applyEffect st e)) as (H1 & H2 & H3 & H4 & H5 & H6 & H7).
    unfold sameDraft.
    rewrite H1, H2, H3, H4, H5, H6, H7.
    destruct e as [|b|v|b|req|row|cb ms]; repeat split.
Qed.

Lemma handleSubmit_sameDraft (a b : FormState) :
  sameDraft a b -> handleSubmit a = handleSubmit b.
Proof.
  destruct a, b. unfold sameDraft. cbn [email password confirmPassword
    firstName lastName studentId role].
  intros (-> & -> & -> & -> & -> & -> & ->). reflexivity.
Qed.

(** X6. The handler never writes the draft: after any attempt, failed or
    successful, email, both passwords, names, studentId and role are as they
    were.  What it does depends on the draft alone and not on [error],
    [isLoading] or [showSuccess]: it does not look at the busy flag, and
    submitting the unchanged draft again, the collaborators answering alike,
    repeats the same effects. *)
Theorem X6_handler_reads_draft_only (st : FormState) :
  sameDraft (afterSubmit st) st
  /\ (forall st', sameDraft st' st -> handleSubmit st' = handleSubmit st)
  /\ handleSubmit (afterSubmit st) = handleSubmit st
  /\ afterSubmit (afterSubmit st) = afterSubmit st.
Proof.
  assert (Hs : sameDraft (afterSubmit st) st) by apply applyTrace_sameDraft.
  assert (Hh : handleSubmit (afterSubmit st) = handleSubmit st)
    by now apply handleSubmit_sameDraft.
  split; [exact Hs|]. split; [intros st'; apply handleSubmit_sameDraft|].
  split; [exact Hh|].
  unfold afterSubmit at 1. rewrite Hh.
  unfold afterSubmit.
  destruct (handleSubmit_total st) as [[m [_ ->]]|[_ [r [_ ->]]]];
    cbn [trace fst]; [reflexivity|].
  destruct r; reflexivity.
Qed.

(** X7. When the auth call answers without an error but with a null user,
    reading the user's id throws inside the [try] block: the attempt ends
    with the engine's TypeError message in the error state and the busy flag
    cleared, and the profile insert is not attempted. *)
Theorem X7_null_user (st : FormState) (c : Client) (resp : Auth.Response) :
  validate st = None ->
  createClient = Returns c ->
  c.(auth_signUp) (signUpRequest st) = Returns resp ->
  resp.(Auth.error) = None ->
  resp.(Auth.user) = None ->
  handleSubmit st =
    ((prelude ++ [AuthSignUp (signUpRequest st);
                  SetError (Some nullUserError.(message));
                  SetIsLoading false])%list, Returns tt)
  /\ filter isInsert (trace (handleSubmit st)) = []
  /\ error (afterSubmit st) = Some nullUserError.(message)
  /\ isLoading (afterSubmit st) = false.
Proof.
  intros Hv Hc Hs He Hu.
  assert (Hr : Ending st (AuthFailed nullUserError))
    by now apply EndNullUser with c resp.
  unfold afterSubmit. rewrite (handleSubmit_ending st _ Hv Hr).
  repeat split.
Qed.

(** X8. When [createClient] throws, a valid draft makes no external call
    at all: the exception's message goes to the error state and the busy
    flag is cleared. *)
Theorem X8_client_unavailable (st : FormState) (e : JsError) :
  validate st = None ->
  createClient = Throws e ->
  handleSubmit st = ((prelude ++ caught e)%list, Returns tt)
  /\ externalCalls (trace (handleSubmit st)) = []
  /\ error (afterSubmit st) = Some e.(message)
  /\ isLoading (afterSubmit st) = false.
Proof.
  intros Hv Hc.
  assert (Hr : Ending st (ClientUnavailable e)) by now apply EndNoClient.
  unfold afterSubmit. rewrite (handleSubmit_ending st _ Hv Hr).
  repeat split.
Qed.

(** The state a failing attempt leaves. *)
Lemma failure_state (st : FormState) (msg : string) :
  Failure st msg ->
  error (afterSubmit st) = Some msg
  /\ isLoading (afterSubmit st) = false
  /\ showSuccess (afterSubmit st) = showSuccess st.
Proof.
  intros Hf. unfold afterSubmit.
  destruct Hf as [msg Hv|r e Hv Hr Hfail].
  - rewrite (handleSubmit_rejected st _ Hv). repeat split.
  - rewrite (handleSubmit_ending st _ Hv Hr).
    destruct r; simpl in Hfail; try discriminate Hfail;
      injection Hfail as ->; repeat split.
Qed.

(** The messages of the checks are never empty. *)
Lemma validate_message (st : FormState) (msg : string) :
  validate st = Some msg -> JSString.truthy msg = true.
Proof.
  unfold validate, checks. cbn [firstFailure].
  destruct (checkStrength st) as [m|] eqn:Es.
  { intros [= <-]. apply checkStrength_message in Es as [_ Hne].
    destruct m; [contradiction|reflexivity]. }
  destruct (checkMatch st) as [m|] eqn:Em.
  { intros [= <-]. now rewrite (checkMatch_message st m Em). }
  destruct (checkDomain st) as [m|] eqn:Ed.
  { intros [= <-]. now rewrite (checkDomain_message st m Ed). }
  destruct (checkStudentId st) as [m|] eqn:Ei; [|discriminate].
  intros [= <-].
  now destruct (checkStudentId_message st m Ei) as [-> | ->].
Qed.

(** X9. After a failing submission the page shows no spinner and its
    submit button is not loading; the error banner shows the message, but
    only if the message is not empty: a backend error with an empty message
    leaves the page without banner.  A validation failure always shows its
    banner. *)
Theorem X9_banner_after_failure (p : PageState) (msg : string) :
  Failure p.(form) msg ->
  errorBanner (render (dispatch p SubmitForm))
    = (if JSString.truthy msg then Some msg else None)
  /\ fullPageSpinner (render (dispatch p SubmitForm)) = false
  /\ submitLoading (render (dispatch p SubmitForm)) = false
  /\ (validate p.(form) = Some msg ->
      errorBanner (render (dispatch p SubmitForm)) = Some msg).
Proof.
  intros Hf.
  destruct (failure_state _ _ Hf) as (He & Hl & _).
  assert (Hb : errorBanner (render (dispatch p SubmitForm))
               = (if JSString.truthy msg then Some msg else None)).
  { cbn [dispatch render withForm form errorBanner].
    rewrite He. cbn [JSString.truthy_opt]. reflexivity. }
  split; [exact Hb|]. split; [exact Hl|]. split; [exact Hl|].
  intros Hv. rewrite Hb. now rewrite (validate_message _ _ Hv).
Qed.

(** X10. After a fully successful submission the page shows the success
    overlay together with the full-page spinner, the submit button is
    loading, and no error banner is shown, whatever error an earlier attempt
    had left. *)
Theorem X10_view_after_success (p : PageState) (uid : string) :
  validate p.(form) = None ->
  Ending p.(form) (Succeeded uid) ->
  successOverlay (render (dispatch p SubmitForm)) = true
  /\ fullPageSpinner (render (dispatch p SubmitForm)) = true
  /\ submitLoading (render (dispatch p SubmitForm)) = true
  /\ errorBanner (render (dispatch p SubmitForm)) = None.
Proof.
  intros Hv Hr.
  cbn [dispatch render withForm form successOverlay fullPageSpinner
       submitLoading errorBanner].
  unfold afterSubmit. rewrite (handleSubmit_ending _ _ Hv Hr).
  repeat split.
Qed.

Lemma dispatch_role (p : PageState) (ev : PageEvent) :
  role (form (dispatch p ev)) = "student" \/
  role (form (dispatch p ev)) = "admin" \/
  role (form (dispatch p ev)) = role (form p).
Proof.
  destruct ev; cbn [dispatch withForm handleBlur form role withRole
    withFirstName withLastName withStudentId withEmail withPassword
    withConfirmPassword]; auto.
  right. right.
  destruct (applyTrace_sameDraft (trace (handleSubmit (form p))) (form p))
    as (_ & _ & _ & _ & _ & _ & Hr).
  exact Hr.
Qed.

Lemma runEvents_role (evs : list PageEvent) (p : PageState) :
  role (form p) = "student" \/ role (form p) = "admin" ->
  role (form (runEvents p evs)) = "student" \/
  role (form (runEvents p evs)) = "admin".
Proof.
  unfold runEvents. revert p.
  induction evs as [|ev evs IH]; intros p Hp; cbn [fold_left]; [exact Hp|].
  apply IH.
  destruct (dispatch_role p ev) as [H|[H|H]]; [now left|now right|].
  now rewrite H.
Qed.

(** X11. Whatever the user does from the freshly loaded page, the role is
    either student or admin.  So exactly one of the two radios is checked;
    the student-ID input (marked required) is rendered exactly when the
    admin notice is not; and the redirect after a success goes to the admin
    dashboard exactly for the admin role. *)
Theorem X11_role_invariant (evs : list PageEvent) :
  (role (form (runEvents initialPage evs)) = "student" \/
   role (form (runEvents initialPage evs)) = "admin")
  /\ studentRadioChecked (render (runEvents initialPage evs))
     = negb (adminRadioChecked (render (runEvents initialPage evs)))
  /\ studentIdInput (render (runEvents initialPage evs))
     = (if adminNotice (render (runEvents initialPage evs)) then None
        else Some (studentId (form (runEvents initialPage evs)), true))
  /\ runCallback (RedirectByRole (role (form (runEvents initialPage evs))))
     = [Push (if adminRadioChecked (render (runEvents initialPage evs))
              then "/dashboard/admin" else "/dashboard/student")].
Proof.
  assert (H : role (form (runEvents initialPage evs)) = "student" \/
              role (form (runEvents initialPage evs)) = "admin")
    by (apply runEvents_role; now left).
  split; [exact H|].
  cbn [render studentRadioChecked adminRadioChecked studentIdInput
       adminNotice runCallback].
  destruct H as [-> | ->]; repeat split.
Qed.

Lemma mismatch_rejected (st : FormState) :
  String.eqb st.(password) st.(confirmPassword) = false ->
  exists msg, validate st = Some msg /\
              (JSString.truthy_opt (validatePassword st.(password)) = false ->
               msg = mismatchMessage).
Proof.
  intros Hne. unfold validate, checks. cbn [firstFailure].
  unfold checkStrength, checkMatch. rewrite Hne.
  destruct (validatePassword st.(password)) as [m|]; cbn [JSString.truthy_opt].
  - destruct (JSString.truthy m).
    + exists m. split; [reflexivity|discriminate].
    + exists mismatchMessage. split; reflexivity.
  - exists mismatchMessage. split; reflexivity.
Qed.

(** X12. Whenever the inline hint under the confirmation field is shown
    (the field has been blurred and the two passwords differ), a submission
    is rejected without any network call; if the policy accepts the
    password, the banner repeats the hint's message. *)
Theorem X12_mismatch_hint (p : PageState) :
  mismatchHint (render p) = true ->
  (exists msg, handleSubmit p.(form) = (rejected msg, Returns tt))
  /\ externalCalls (trace (handleSubmit p.(form))) = []
  /\ (JSString.truthy_opt (validatePassword p.(form).(password)) = false ->
      errorBanner (render (dispatch p SubmitForm)) = Some mismatchMessage).
Proof.
  cbn [render mismatchHint]. intros H.
  apply andb_true_iff in H as [_ H]. apply negb_true_iff in H.
  destruct (mismatch_rejected _ H) as (msg & Hv & Hm).
  pose proof (handleSubmit_rejected _ _ Hv) as Hh.
  split; [now exists msg|]. split; [now rewrite Hh|].
  intros Hs. rewrite (Hm Hs) in *.
  cbn [dispatch render withForm form errorBanner].
  unfold afterSubmit. now rewrite Hh.
Qed.

Lemma getKey_setKey_same (k : string) (v : bool) (o : Touched) :
  getKey k (setKey k v o) = Some v.
Proof.
  induction o as [|[k' v'] o IH]; cbn [setKey getKey].
  - now rewrite String.eqb_refl.
  - destruct (String.eqb k' k) eqn:E; cbn [getKey]; rewrite E;
      [reflexivity|exact IH].
Qed.

Lemma getKey_setKey_other (k k' : string) (v : bool) (o : Touched) :
  k <> k' -> getKey k' (setKey k v o) = getKey k' o.
Proof.
  intros Hne. induction o as [|[k0 v0] o IH]; cbn [setKey getKey].
  - destruct (String.eqb_spec k k'); [contradiction|reflexivity].
  - destruct (String.eqb_spec k0 k) as [->|Hk]; cbn [getKey].
    + destruct (String.eqb_spec k k'); [contradiction|reflexivity].
    + destruct (String.eqb k0 k'); [reflexivity|exact IH].
Qed.

Lemma setKey_twice (k : string) (v : bool) (o : Touched) :
  setKey k v (setKey k v o) = setKey k v o.
Proof.
  induction o as [|[k' v'] o IH]; cbn [setKey].
  - now rewrite String.eqb_refl.
  - destruct (String.eqb k' k) eqn:E; cbn [setKey]; rewrite E;
      [reflexivity|now rewrite IH].
Qed.

Lemma setKey_keys (k : string) (v : bool) (o : Touched) :
  NoDup (map fst o) ->
  NoDup (map fst (setKey k v o)) /\
  forall k', In k' (map fst (setKey k v o)) <-> k' = k \/ In k' (map fst o).
Proof.
  clear validatePassword createClient nullUserError.
  induction o as [|[k0 v0] o IH]; cbn [setKey map fst].
  - intros _. split; [repeat constructor; intros []|].
    intros k'. simpl. intuition congruence.
  - intros Hnd. inversion Hnd as [|? ? Hnotin Hnd']; subst.
    destruct (String.eqb_spec k0 k) as [->|Hk]; cbn [map fst].
    + split; [exact Hnd|]. intros k'. simpl. intuition congruence.
    + destruct (IH Hnd') as [IHn IHk]. split.
      * constructor; [|exact IHn].
        intros Hin. apply IHk in Hin as [->|Hin]; contradiction.
      * intros k'. simpl. rewrite IHk. intuition congruence.
Qed.

(** X13. [handleBlur] marks its field as touched and nothing else: the
    field reads true afterwards, every other key reads as before, the draft
    and the show-password flags are untouched, blurring the same field again
    changes nothing, and the object never gets a duplicate key. *)
Theorem X13_handleBlur (field : string) (p : PageState) :
  getKey field (touched (handleBlur field p)) = Some true
  /\ (forall k, k <> field ->
                getKey k (touched (handleBlur field p))
                = getKey k (touched p))
  /\ handleBlur field (handleBlur field p) = handleBlur field p
  /\ form (handleBlur field p) = form p
  /\ (NoDup (map fst (touched p)) ->
      NoDup (map fst (touched (handleBlur field p))))
  /\ (forall k, isTouched k (touched p) = true ->
                isTouched k (touched (handleBlur field p)) = true).
Proof.
  cbn [handleBlur touched form].
  split; [apply getKey_setKey_same|].
  split; [intros k Hk; apply getKey_setKey_other; congruence|].
  split; [unfold handleBlur; cbn [touched form showPassword
                                   showConfirmPassword];
          now rewrite setKey_twice|].
  split; [reflexivity|].
  split; [intros Hnd; now apply setKey_keys|].
  intros k Hk. unfold isTouched in *.
  destruct (String.eqb_spec field k) as [->|Hne].
  - now rewrite getKey_setKey_same.
  - now rewrite getKey_setKey_other.
Qed.

Lemma dispatch_touched (p : PageState) (ev : PageEvent) (k : string) :
  isTouched k (touched (dispatch p ev)) =
  isTouched k (touched p)
  || (String.eqb k "password" && isBlurPassword ev)
  || (String.eqb k "confirmPassword" && isBlurConfirmPassword ev).
Proof.
  unfold isTouched.
  destruct ev; cbn [dispatch withForm handleBlur touched isBlurPassword
                    isBlurConfirmPassword];
    rewrite ?andb_false_r, ?orb_false_r; try reflexivity.
  - destruct (String.eqb_spec k "password") as [->|Hne].
    + rewrite getKey_setKey_same. now rewrite orb_true_r.
    + rewrite getKey_setKey_other by congruence. now rewrite orb_false_r.
  - destruct (String.eqb_spec k "confirmPassword") as [->|Hne].
    + rewrite getKey_setKey_same. now rewrite orb_true_r.
    + rewrite getKey_setKey_other by congruence. now rewrite orb_false_r.
Qed.

Lemma runEvents_touched (evs : list PageEvent) (p : PageState) (k : string) :
  isTouched k (touched (runEvents p evs)) =
  isTouched k (touched p)
  || (String.eqb k "password" && existsb isBlurPassword evs)
  || (String.eqb k "confirmPassword" && existsb isBlurConfirmPassword evs).
Proof.
  unfold runEvents. revert p.
  induction evs as [|ev evs IH]; intros p; cbn [fold_left existsb].
  - now rewrite !andb_false_r, !orb_false_r.
  - rewrite IH, dispatch_touched.
    destruct (isTouched k (touched p)), (String.eqb k "password"),
      (String.eqb k "confirmPassword"), (isBlurPassword ev),
      (isBlurConfirmPassword ev), (existsb isBlurPassword evs),
      (existsb isBlurConfirmPassword evs); reflexivity.
Qed.

(** X14. From the freshly loaded page, the strength widget under the
    password field is rendered exactly when the password field has been
    blurred at least once, and then shows the current password; the
    mismatch hint is rendered exactly when the confirmation field has been
    blurred at least once and the two passwords now differ.  No event un-
    touches a field. *)
Theorem X14_touched_fields (evs : list PageEvent) :
  passwordStrength (render (runEvents initialPage evs))
    = (if existsb isBlurPassword evs
       then Some (password (form (runEvents initialPage evs))) else None)
  /\ mismatchHint (render (runEvents initialPage evs))
     = existsb isBlurConfirmPassword evs
       && negb (String.eqb
                  (password (form (runEvents initialPage evs)))
                  (confirmPassword (form (runEvents initialPage evs))))
  /\ (forall p k more,
        isTouched k (touched p) = true ->
        isTouched k (touched (runEvents p more)) = true).
Proof.
  cbn [render passwordStrength mismatchHint].
  rewrite !runEvents_touched.
  split; [|split].
  - destruct (existsb isBlurPassword evs),
      (existsb isBlurConfirmPassword evs); reflexivity.
  - destruct (existsb isBlurPassword evs),
      (existsb isBlurConfirmPassword evs); reflexivity.
  - intros p k more Hk. now rewrite runEvents_touched, Hk.
Qed.

Lemma afterSubmit_showSuccess (st : FormState) :
  showSuccess st = true -> showSuccess (afterSubmit st) = true.
Proof.
  intros Hs. unfold afterSubmit.
  destruct (handleSubmit_total st) as [[m [_ ->]]|[_ [r [_ ->]]]];
    cbn [trace fst]; [exact Hs|].
  destruct r; first [exact Hs|reflexivity].
Qed.

Lemma dispatch_showSuccess (p : PageState) (ev : PageEvent) :
  showSuccess (form p) = true -> showSuccess (form (dispatch p ev)) = true.
Proof.
  destruct ev; try (intros H; exact H).
  cbn [dispatch withForm form]. apply afterSubmit_showSuccess.
Qed.

Lemma dispatch_flags (p : PageState) (ev : PageEvent) :
  isSubmit ev = false ->
  error (form (dispatch p ev)) = error (form p)
  /\ isLoading (form (dispatch p ev)) = isLoading (form p)
  /\ showSuccess (form (dispatch p ev)) = showSuccess (form p).
Proof. destruct ev; try discriminate; intros _; repeat split. Qed.

(** X15. Nothing but a submission changes what the page reports about a
    submission: while the user edits fields, switches role, leaves a field
    or toggles password visibility, the error banner, the spinner and the
    success overlay stay as they are (an error stays up until the next
    submission).  And nothing at all hides the success overlay once it is
    shown. *)
Theorem X15_submission_flags (p : PageState) (evs : list PageEvent) :
  (existsb isSubmit evs = false ->
   errorBanner (render (runEvents p evs)) = errorBanner (render p)
   /\ fullPageSpinner (render (runEvents p evs)) = fullPageSpinner (render p)
   /\ successOverlay (render (runEvents p evs)) = successOverlay (render p))
  /\ (successOverlay (render p) = true ->
      successOverlay (render (runEvents p evs)) = true).
Proof.
  cbn [render errorBanner fullPageSpinner successOverlay].
  unfold runEvents. split.
  - revert p. induction evs as [|ev evs IH]; intros p; cbn [fold_left existsb].
    + intros _. repeat split.
    + intros H. apply orb_false_iff in H as [Hev Hevs].
      destruct (dispatch_flags p ev Hev) as (He & Hl & Hs).
      destruct (IH (dispatch p ev) Hevs) as (He' & Hl' & Hs').
      rewrite He', Hl', Hs', He, Hl, Hs. repeat split.
  - revert p. induction evs as [|ev evs IH]; intros p; cbn [fold_left].
    + intros H. exact H.
    + intros H. apply IH. now apply dispatch_showSuccess.
Qed.

(** X16. A redirect is only ever scheduled by a fully successful attempt:
    if a timer is registered, its delay is 5000 ms, its callback redirects by
    the draft's role, the draft passed validation, both external calls
    succeeded and the succeeded flag is set.  No attempt registers two
    timers. *)
Theorem X16_timer_only_on_success (st : FormState) (cb : Callback) (ms : Z) :
  In (SetTimeout cb ms) (trace (handleSubmit st)) ->
  ms = 5000%Z
  /\ cb = RedirectByRole st.(role)
  /\ validate st = None
  /\ (exists uid, Ending st (Succeeded uid))
  /\ showSuccess (afterSubmit st) = true
  /\ List.length (filter isTimer (trace (handleSubmit st))) = 1%nat.
Proof.
  intros Hin. unfold afterSubmit.
  destruct (handleSubmit_total st) as [[m [_ Heq]]|[Hv [r [Hr Heq]]]];
    rewrite Heq in *; cbn [trace fst] in *.
  { simpl in Hin.
    repeat (destruct Hin as [Hin|Hin]; try discriminate Hin).
    contradiction. }
  destruct r as [e|e|uid e|uid]; simpl in Hin;
    repeat (destruct Hin as [Hin|Hin]; try discriminate Hin);
    try contradiction.
  injection Hin as <- <-.
  repeat split; try assumption. now exists uid.
Qed.

End Signup.

(** ** The claims on concrete drafts *)

(** C1 on a draft whose confirmation and email are both wrong: the earlier
    check's message is the one surfaced. *)
Lemma C1_validation_order_witness :
  handleSubmit lengthPolicy (Returns okClient) sampleTypeError
    (withConfirmPassword (withEmail studentDraft "ama.mensah@gmail.com")
                         "different")
  = (rejected mismatchMessage, Returns tt).
Proof.
  exact (proj1 (C1_validation_order lengthPolicy (Returns okClient)
                  sampleTypeError
                  (withConfirmPassword
                     (withEmail studentDraft "ama.mensah@gmail.com")
                     "different"))).
Defined.

(** C2 on a gmail address. *)
Lemma C2_foreign_domain_rejected_witness :
  passwordChecksPass lengthPolicy
    (withEmail studentDraft "ama.mensah@gmail.com")
  /\ JSString.endsWith "ama.mensah@gmail.com" "@ashesi.edu.gh" = false
  /\ JSString.endsWith "ama.mensah@gmail.com" "@aucampus.onmicrosoft.com"
     = false
  /\ handleSubmit lengthPolicy (Returns okClient) sampleTypeError
       (withEmail studentDraft "ama.mensah@gmail.com")
     = (rejected domainMessage, Returns tt).
Proof.
  split; [split; reflexivity|].
  split; [reflexivity|]. split; [reflexivity|].
  apply (C2_foreign_domain_rejected lengthPolicy (Returns okClient)
           sampleTypeError (withEmail studentDraft "ama.mensah@gmail.com")).
  - split; reflexivity.
  - reflexivity.
  - reflexivity.
Defined.

(** C3 on the student ID 12340099, whose fifth and sixth digits are not 20. *)
Lemma C3_student_id_check_witness :
  role (withStudentId studentDraft "12340099") = "student"
  /\ Regex.test studentIdPattern "12340099" = false
  /\ passwordChecksPass lengthPolicy (withStudentId studentDraft "12340099")
  /\ checkDomain (withStudentId studentDraft "12340099") = None
  /\ handleSubmit lengthPolicy (Returns okClient) sampleTypeError
       (withStudentId studentDraft "12340099")
     = (rejected formatMessage, Returns tt).
Proof.
  split; [reflexivity|]. split; [reflexivity|].
  split; [split; reflexivity|]. split; [reflexivity|].
  destruct (C3_student_id_check lengthPolicy (Returns okClient)
              sampleTypeError (withStudentId studentDraft "12340099")
              eq_refl) as (_ & H & _).
  apply H; [split; reflexivity|reflexivity].
Defined.

(** C4 on the passwords "Abc123!@" and "different". *)
Lemma C4_password_equality_witness :
  JSString.truthy_opt (lengthPolicy "Abc123!@") = false
  /\ validateForm lengthPolicy (withConfirmPassword studentDraft "different")
     = ([SetError (Some mismatchMessage)], Returns false)
  /\ handleSubmit lengthPolicy (Returns okClient) sampleTypeError
       (withConfirmPassword studentDraft "different")
     = (rejected mismatchMessage, Returns tt).
Proof.
  split; [reflexivity|].
  destruct (C4_password_equality lengthPolicy (Returns okClient)
              sampleTypeError (withConfirmPassword studentDraft "different"))
    as (_ & _ & H & _).
  apply H. reflexivity.
Defined.

(** C5 on a staff draft that still carries a student ID. *)
Lemma C5_role_fields_witness :
  role staffDraft <> "student"
  /\ In (UsersInsert (profileRow staffDraft "user-1"))
        (trace (handleSubmit lengthPolicy (Returns okClient) sampleTypeError
                  staffDraft))
  /\ callFields (UsersInsert (profileRow staffDraft "user-1"))
     = Some (None, 2%Z)
  /\ handleSubmit lengthPolicy (Returns okClient) sampleTypeError
       (withStudentId staffDraft "not-an-id")
     = handleSubmit lengthPolicy (Returns okClient) sampleTypeError staffDraft.
Proof.
  assert (Hne : role staffDraft <> "student") by discriminate.
  split; [exact Hne|].
  split; [simpl; tauto|]. split; [reflexivity|].
  destruct (C5_role_fields lengthPolicy (Returns okClient) sampleTypeError
              staffDraft) as (_ & H).
  destruct (H Hne) as (_ & Hv). apply Hv.
Defined.

(** C6 on a backend whose auth service refuses the account. *)
Lemma C6_auth_failure_stops_witness :
  validate lengthPolicy studentDraft = None
  /\ authFails authFailClient studentDraft
       {| message := "User already registered" |}
  /\ filter isInsert
       (trace (handleSubmit lengthPolicy (Returns authFailClient)
                 sampleTypeError studentDraft)) = []
  /\ error (afterSubmit lengthPolicy (Returns authFailClient)
              sampleTypeError studentDraft)
     = Some "User already registered".
Proof.
  assert (Hf : authFails authFailClient studentDraft
                 {| message := "User already registered" |}).
  { right. eexists. split; reflexivity. }
  split; [reflexivity|]. split; [exact Hf|].
  destruct (C6_auth_failure_stops lengthPolicy (Returns authFailClient)
              sampleTypeError studentDraft) as (_ & H).
  destruct (H authFailClient _ eq_refl eq_refl Hf) as (_ & Hi & He & _).
  split; [exact Hi|exact He].
Defined.

(** C7 on a backend that creates the account and refuses the row. *)
Lemma C7_insert_failure_witness :
  validate lengthPolicy staffDraft = None
  /\ authSucceeds insertFailClient staffDraft "user-1"
  /\ insertFails insertFailClient staffDraft "user-1"
       {| message := "duplicate key value violates unique constraint" |}
  /\ error (afterSubmit lengthPolicy (Returns insertFailClient)
              sampleTypeError staffDraft)
     = Some "duplicate key value violates unique constraint"
  /\ showSuccess (afterSubmit lengthPolicy (Returns insertFailClient)
                    sampleTypeError staffDraft) = false
  /\ filter isTimer
       (trace (handleSubmit lengthPolicy (Returns insertFailClient)
                 sampleTypeError staffDraft)) = [].
Proof.
  assert (Ha : authSucceeds insertFailClient staffDraft "user-1").
  { eexists _, _. repeat split. }
  assert (Hi : insertFails insertFailClient staffDraft "user-1"
                 {| message :=
                      "duplicate key value violates unique constraint" |}).
  { right. eexists. split; reflexivity. }
  split; [reflexivity|]. split; [exact Ha|]. split; [exact Hi|].
  destruct (C7_insert_failure lengthPolicy (Returns insertFailClient)
              sampleTypeError staffDraft insertFailClient _ _
              eq_refl eq_refl Ha Hi) as (_ & He & _ & Hs & Ht & _).
  split; [exact He|]. split; [exact Hs|exact Ht].
Defined.

(** C8 on the student and the staff draft. *)
Lemma C8_success_redirect_witness :
  validate lengthPolicy staffDraft = None
  /\ authSucceeds okClient staffDraft "user-1"
  /\ insertSucceeds okClient staffDraft "user-1"
  /\ showSuccess (afterSubmit lengthPolicy (Returns okClient)
                    sampleTypeError staffDraft) = true
  /\ filter isTimer
       (trace (handleSubmit lengthPolicy (Returns okClient)
                 sampleTypeError staffDraft))
     = [SetTimeout (RedirectByRole "admin") 5000]
  /\ runCallback (RedirectByRole "admin") = [Push "/dashboard/admin"].
Proof.
  assert (Ha : authSucceeds okClient staffDraft "user-1").
  { eexists _, _. repeat split. }
  assert (Hi : insertSucceeds okClient staffDraft "user-1").
  { eexists. split; reflexivity. }
  split; [reflexivity|]. split; [exact Ha|]. split; [exact Hi|].
  destruct (C8_success_redirect lengthPolicy (Returns okClient)
              sampleTypeError staffDraft okClient _
              eq_refl eq_refl Ha Hi) as (_ & Hs & Ht & Hp).
  split; [exact Hs|]. split; [exact Ht|exact Hp].
Defined.

(** C9 on a draft with a short password. *)
Lemma C9_failure_returns_idle_witness :
  Failure lengthPolicy (Returns okClient) sampleTypeError
    initialState "Password must be at least 8 characters long"
  /\ error (afterSubmit lengthPolicy (Returns okClient) sampleTypeError
              initialState)
     = Some "Password must be at least 8 characters long"
  /\ isLoading (afterSubmit lengthPolicy (Returns okClient) sampleTypeError
                  initialState) = false.
Proof.
  assert (Hf : Failure lengthPolicy (Returns okClient) sampleTypeError
                 initialState "Password must be at least 8 characters long").
  { apply FailValidation. reflexivity. }
  split; [exact Hf|].
  destruct (C9_failure_returns_idle lengthPolicy (Returns okClient)
              sampleTypeError initialState) as (H & _).
  destruct (H _ Hf) as (He & Hl & _).
  split; [exact He|exact Hl].
Defined.

(** C10 on the student draft with both calls succeeding. *)
Lemma C10_busy_on_success_witness :
  validate lengthPolicy studentDraft = None
  /\ Ending (Returns okClient) sampleTypeError studentDraft
       (Succeeded "user-1")
  /\ filter clearsBusy
       (trace (handleSubmit lengthPolicy (Returns okClient)
                 sampleTypeError studentDraft)) = []
  /\ isLoading (afterSubmit lengthPolicy (Returns okClient)
                  sampleTypeError studentDraft) = true.
Proof.
  assert (Hr : Ending (Returns okClient) sampleTypeError studentDraft
                 (Succeeded "user-1")).
  { apply EndSucceeded with okClient; [reflexivity| |].
    - eexists _, _. repeat split.
    - eexists. split; reflexivity. }
  split; [reflexivity|]. split; [exact Hr|].
  destruct (C10_busy_on_success lengthPolicy (Returns okClient)
              sampleTypeError studentDraft) as (_ & H & _).
  destruct (H _ eq_refl Hr) as (Hc & Hl & _).
  split; [exact Hc|exact Hl].
Defined.

(** ** The further properties on concrete drafts *)

(** X1 on an address with two separators. *)
Lemma X1_split_parts_witness :
  JSString.split "@" "a@b@ashesi.edu.gh" = ["a"; "b"; "ashesi.edu.gh"]
  /\ List.length (JSString.split "@" "a@b@ashesi.edu.gh")
     = S (countChar "@" "a@b@ashesi.edu.gh")
  /\ JSString.split "@" ("ama" ++ String "@" "ashesi.edu.gh")
     = ["ama"; "ashesi.edu.gh"].
Proof.
  split; [reflexivity|].
  destruct (X1_split_parts "@" "a@b@ashesi.edu.gh") as (Hl & _ & _ & Hs).
  split; [exact Hl|]. apply Hs; reflexivity.
Defined.

(** X2 on the student draft's address. *)
Lemma X2_accepted_addresses_witness :
  countChar "@" "ama.mensah" = 0%nat
  /\ emailRejected (email studentDraft) = false.
Proof.
  split; [reflexivity|].
  destruct (X2_accepted_addresses lengthPolicy (Returns okClient)
              sampleTypeError studentDraft) as (H & _).
  apply H. exists "ama.mensah". split; [reflexivity|now left].
Defined.

(** X3 on an address that ends in an allowed domain but has two [@]. *)
Lemma X3_one_at_sign_witness :
  passwordChecksPass lengthPolicy (withEmail studentDraft "a@b@ashesi.edu.gh")
  /\ countChar "@" "a@b@ashesi.edu.gh" <> 1%nat
  /\ handleSubmit lengthPolicy (Returns okClient) sampleTypeError
       (withEmail studentDraft "a@b@ashesi.edu.gh")
     = (rejected domainMessage, Returns tt).
Proof.
  assert (Hn : countChar "@" "a@b@ashesi.edu.gh" <> 1%nat) by discriminate.
  split; [split; reflexivity|]. split; [exact Hn|].
  apply (X3_one_at_sign lengthPolicy (Returns okClient) sampleTypeError
           (withEmail studentDraft "a@b@ashesi.edu.gh")).
  - split; reflexivity.
  - exact Hn.
Defined.

(** X4 on the sign-up call of the student draft. *)
Lemma X4_calls_only_when_valid_witness :
  In (AuthSignUp (signUpRequest studentDraft))
     (trace (handleSubmit lengthPolicy (Returns okClient) sampleTypeError
               studentDraft))
  /\ isExternalCall (AuthSignUp (signUpRequest studentDraft)) = true
  /\ emailRejected (email studentDraft) = false
  /\ (role studentDraft = "student" ->
      wellFormedStudentId (studentId studentDraft)).
Proof.
  assert (Hin : In (AuthSignUp (signUpRequest studentDraft))
                   (trace (handleSubmit lengthPolicy (Returns okClient)
                             sampleTypeError studentDraft)))
    by (simpl; tauto).
  split; [exact Hin|]. split; [reflexivity|].
  destruct (X4_calls_only_when_valid lengthPolicy (Returns okClient)
              sampleTypeError studentDraft _ Hin eq_refl)
    as (_ & _ & He & Hw).
  split; [exact He|exact Hw].
Defined.

(** X5 on the row inserted for the staff draft. *)
Lemma X5_profile_row_witness :
  In (UsersInsert (profileRow staffDraft "user-1"))
     (trace (handleSubmit lengthPolicy (Returns okClient) sampleTypeError
               staffDraft))
  /\ Users.password (profileRow staffDraft "user-1") = "hashed_by_supabase"
  /\ Users.email (profileRow staffDraft "user-1") = email staffDraft.
Proof.
  assert (Hin : In (UsersInsert (profileRow staffDraft "user-1"))
                   (trace (handleSubmit lengthPolicy (Returns okClient)
                             sampleTypeError staffDraft)))
    by (simpl; tauto).
  split; [exact Hin|].
  destruct (X5_profile_row lengthPolicy (Returns okClient) sampleTypeError
              staffDraft _ Hin) as (Hp & He & _).
  split; [exact Hp|exact He].
Defined.

(** X6 on a draft left busy and with an old error. *)
Lemma X6_handler_reads_draft_only_witness :
  sameDraft (applyEffect (applyEffect studentDraft (SetIsLoading true))
                         (SetError (Some "old error")))
            studentDraft
  /\ handleSubmit lengthPolicy (Returns okClient) sampleTypeError
       (applyEffect (applyEffect studentDraft (SetIsLoading true))
                    (SetError (Some "old error")))
     = handleSubmit lengthPolicy (Returns okClient) sampleTypeError
         studentDraft.
Proof.
  assert (Hs : sameDraft
                 (applyEffect (applyEffect studentDraft (SetIsLoading true))
                              (SetError (Some "old error")))
                 studentDraft) by (repeat split).
  split; [exact Hs|].
  destruct (X6_handler_reads_draft_only lengthPolicy (Returns okClient)
              sampleTypeError studentDraft) as (_ & H & _).
  apply H. exact Hs.
Defined.

(** X7 on a backend answering with a null user. *)
Lemma X7_null_user_witness :
  validate lengthPolicy studentDraft = None
  /\ Auth.user {| Auth.user := None; Auth.error := None |} = None
  /\ error (afterSubmit lengthPolicy (Returns nullUserClient)
              sampleTypeError studentDraft)
     = Some "Cannot read properties of null (reading 'id')"
  /\ filter isInsert
       (trace (handleSubmit lengthPolicy (Returns nullUserClient)
                 sampleTypeError studentDraft)) = [].
Proof.
  split; [reflexivity|]. split; [reflexivity|].
  destruct (X7_null_user lengthPolicy (Returns nullUserClient)
              sampleTypeError studentDraft nullUserClient
              {| Auth.user := None; Auth.error := None |}
              eq_refl eq_refl eq_refl eq_refl eq_refl)
    as (_ & Hi & He & _).
  split; [exact He|exact Hi].
Defined.

(** X8 with a client factory that throws. *)
Lemma X8_client_unavailable_witness :
  validate lengthPolicy studentDraft = None
  /\ externalCalls
       (trace (handleSubmit lengthPolicy
                 (Throws {| message := "supabaseUrl is required." |})
                 sampleTypeError studentDraft)) = []
  /\ error (afterSubmit lengthPolicy
              (Throws {| message := "supabaseUrl is required." |})
              sampleTypeError studentDraft)
     = Some "supabaseUrl is required.".
Proof.
  split; [reflexivity|].
  destruct (X8_client_unavailable lengthPolicy
              (Throws {| message := "supabaseUrl is required." |})
              sampleTypeError studentDraft _ eq_refl eq_refl)
    as (_ & Hc & He & _).
  split; [exact Hc|exact He].
Defined.

(** X9 on a backend error without message. *)
Lemma X9_banner_after_failure_witness :
  Failure lengthPolicy (Throws {| message := "" |}) sampleTypeError
    studentDraft ""
  /\ errorBanner
       (render (dispatch lengthPolicy (Throws {| message := "" |})
                  sampleTypeError (withForm initialPage studentDraft)
                  SubmitForm)) = None
  /\ fullPageSpinner
       (render (dispatch lengthPolicy (Throws {| message := "" |})
                  sampleTypeError (withForm initialPage studentDraft)
                  SubmitForm)) = false.
Proof.
  assert (Hf : Failure lengthPolicy (Throws {| message := "" |})
                 sampleTypeError studentDraft "").
  { apply (FailAccount lengthPolicy (Throws {| message := "" |})
             sampleTypeError studentDraft
             (ClientUnavailable {| message := "" |}) {| message := "" |});
      [reflexivity|now constructor|reflexivity]. }
  split; [exact Hf|].
  destruct (X9_banner_after_failure lengthPolicy
              (Throws {| message := "" |}) sampleTypeError
              (withForm initialPage studentDraft) "" Hf)
    as (Hb & Hs & _).
  split; [exact Hb|exact Hs].
Defined.

(** X10 on a successful attempt that follows a failed one. *)
Lemma X10_view_after_success_witness :
  validate lengthPolicy
    (applyEffect studentDraft (SetError (Some "old error"))) = None
  /\ Ending (Returns okClient) sampleTypeError
       (applyEffect studentDraft (SetError (Some "old error")))
       (Succeeded "user-1")
  /\ errorBanner
       (render (dispatch lengthPolicy (Returns okClient) sampleTypeError
                  (withForm initialPage
                     (applyEffect studentDraft (SetError (Some "old error"))))
                  SubmitForm)) = None
  /\ successOverlay
       (render (dispatch lengthPolicy (Returns okClient) sampleTypeError
                  (withForm initialPage
                     (applyEffect studentDraft (SetError (Some "old error"))))
                  SubmitForm)) = true.
Proof.
  assert (Hr : Ending (Returns okClient) sampleTypeError
                 (applyEffect studentDraft (SetError (Some "old error")))
                 (Succeeded "user-1")).
  { apply EndSucceeded with okClient; [reflexivity| |].
    - eexists _, _. repeat split.
    - eexists. split; reflexivity. }
  split; [reflexivity|]. split; [exact Hr|].
  destruct (X10_view_after_success lengthPolicy (Returns okClient)
              sampleTypeError
              (withForm initialPage
                 (applyEffect studentDraft (SetError (Some "old error"))))
              "user-1" eq_refl Hr) as (Ho & _ & _ & Hb).
  split; [exact Hb|exact Ho].
Defined.

(** X12 on a page whose confirmation field was left with another value. *)
Lemma X12_mismatch_hint_witness :
  mismatchHint
    (render (handleBlur "confirmPassword"
               (withForm initialPage
                  (withConfirmPassword studentDraft "different")))) = true
  /\ externalCalls
       (trace (handleSubmit lengthPolicy (Returns okClient) sampleTypeError
                 (withConfirmPassword studentDraft "different"))) = [].
Proof.
  split; [reflexivity|].
  destruct (X12_mismatch_hint lengthPolicy (Returns okClient) sampleTypeError
              (handleBlur "confirmPassword"
                 (withForm initialPage
                    (withConfirmPassword studentDraft "different")))
              eq_refl) as (_ & H & _).
  exact H.
Defined.

(** X13 on a second field blurred after a first. *)
Lemma X13_handleBlur_witness :
  NoDup (map fst (touched (handleBlur "password" initialPage)))
  /\ NoDup (map fst (touched (handleBlur "confirmPassword"
                                (handleBlur "password" initialPage))))
  /\ getKey "password"
       (touched (handleBlur "confirmPassword"
                   (handleBlur "password" initialPage))) = Some true.
Proof.
  assert (Hnd : NoDup (map fst (touched (handleBlur "password" initialPage)))).
  { repeat constructor. intros []. }
  split; [exact Hnd|].
  destruct (X13_handleBlur "confirmPassword"
              (handleBlur "password" initialPage)) as (_ & Ho & _ & _ & Hn & _).
  split; [exact (Hn Hnd)|].
  rewrite Ho; [reflexivity|discriminate].
Defined.

(** X14 on a page whose password field was touched before the draft was
    typed. *)
Lemma X14_touched_fields_witness :
  isTouched "password" (touched (handleBlur "password" initialPage)) = true
  /\ isTouched "password"
       (touched (runEvents lengthPolicy (Returns okClient) sampleTypeError
                   (handleBlur "password" initialPage)
                   [ChangePassword "Abc123!@"; SelectAdmin; SubmitForm]))
     = true.
Proof.
  split; [reflexivity|].
  destruct (X14_touched_fields lengthPolicy (Returns okClient)
              sampleTypeError []) as (_ & _ & H).
  apply H. reflexivity.
Defined.

(** X15 on edits made after a rejected attempt. *)
Lemma X15_submission_flags_witness :
  existsb isSubmit [ChangePassword "Abc123!@"; BlurPassword; SelectAdmin]
  = false
  /\ errorBanner
       (render (runEvents lengthPolicy (Returns okClient) sampleTypeError
                  (dispatch lengthPolicy (Returns okClient) sampleTypeError
                     initialPage SubmitForm)
                  [ChangePassword "Abc123!@"; BlurPassword; SelectAdmin]))
     = Some "Password must be at least 8 characters long".
Proof.
  split; [reflexivity|].
  destruct (X15_submission_flags lengthPolicy (Returns okClient)
              sampleTypeError
              (dispatch lengthPolicy (Returns okClient) sampleTypeError
                 initialPage SubmitForm)
              [ChangePassword "Abc123!@"; BlurPassword; SelectAdmin])
    as (H & _).
  destruct (H eq_refl) as (Hb & _). rewrite Hb. reflexivity.
Defined.

(** X16 on the timer of the staff draft's successful attempt. *)
Lemma X16_timer_only_on_success_witness :
  In (SetTimeout (RedirectByRole "admin") 5000)
     (trace (handleSubmit lengthPolicy (Returns okClient) sampleTypeError
               staffDraft))
  /\ validate lengthPolicy staffDraft = None
  /\ showSuccess (afterSubmit lengthPolicy (Returns okClient)
                    sampleTypeError staffDraft) = true.
Proof.
  assert (Hin : In (SetTimeout (RedirectByRole "admin") 5000)
                   (trace (handleSubmit lengthPolicy (Returns okClient)
                             sampleTypeError staffDraft)))
    by (simpl; tauto).
  split; [exact Hin|].
  destruct (X16_timer_only_on_success lengthPolicy (Returns okClient)
              sampleTypeError staffDraft _ _ Hin)
    as (_ & _ & Hv & _ & Hs & _).
  split; [exact Hv|exact Hs].
Defined.
